(** * Vaani.pro API gateway (src/main.py): a shallow embedding

    The file follows [src/main.py].  Python [str] values are sequences of
    Unicode code points; dictionaries keep insertion order and are association
    lists; generators and functions with [try]/[except] and early [return]
    live in a small trace monad.  The model providers, the two agent graphs
    and [uuid.uuid4] are collaborators outside the file: they are the
    variables of the section [Gateway]. *)

From Stdlib Require Import List NArith ZArith Bool String Ascii Lia.
From Stdlib Require Import DecimalString.
Import ListNotations.
Open Scope list_scope.

(** ** Python strings *)

Definition char := N.
Definition pystr := list char.

(** A literal of the source, code point by code point. *)
Definition py (s : string) : pystr := map N_of_ascii (list_ascii_of_string s).
Arguments py s%_string.

Definition SP : char := 32%N.
Definition LF : char := 10%N.
Definition QUOTE : char := 34%N.
Definition BACKSLASH : char := 92%N.

Fixpoint str_eqb (a b : pystr) : bool :=
  match a, b with
  | [], [] => true
  | x :: a', y :: b' => N.eqb x y && str_eqb a' b'
  | _, _ => false
  end.

(** Truth value of a [str]: the empty string is falsy. *)
Definition truthy (s : pystr) : bool :=
  match s with [] => false | _ :: _ => true end.

(** Truth value of [d.get(k)] for a string-valued key. *)
Definition truthy_opt (o : option pystr) : bool :=
  match o with Some s => truthy s | None => false end.

(** [c in s] for a single character [c]. *)
Definition char_in (c : char) (s : pystr) : bool := existsb (N.eqb c) s.

(** [s.split(sep)] for a one-character separator: one piece more than there
    are separators, empty pieces kept. *)
Fixpoint split (sep : char) (s : pystr) : list pystr :=
  match s with
  | [] => [[]]
  | c :: s' =>
      if N.eqb c sep then [] :: split sep s'
      else match split sep s' with
           | w :: ws => (c :: w) :: ws
           | [] => [[c]]
           end
  end.

(** [sep.join(l)]. *)
Fixpoint join (sep : pystr) (l : list pystr) : pystr :=
  match l with
  | [] => []
  | [x] => x
  | x :: rest => x ++ sep ++ join sep rest
  end.

(** [str.isspace] on one code point (CPython's [_PyUnicode_IsWhitespace]). *)
Definition is_space (c : char) : bool :=
  ((9 <=? c) && (c <=? 13) || (28 <=? c) && (c <=? 32)
   || (c =? 133) || (c =? 160) || (c =? 5760)
   || (8192 <=? c) && (c <=? 8202)
   || (c =? 8232) || (c =? 8233) || (c =? 8239) || (c =? 8287)
   || (c =? 12288))%N.

Fixpoint lstrip (s : pystr) : pystr :=
  match s with
  | c :: s' => if is_space c then lstrip s' else s
  | [] => []
  end.

Definition rstrip (s : pystr) : pystr := rev (lstrip (rev s)).

(** [s.strip()]. *)
Definition strip (s : pystr) : pystr := rstrip (lstrip s).

(** ** JSON values and [json.dumps]

    The events are dictionaries of strings and of one nested dictionary. *)

#[local] Set Warnings "-register-all".

Inductive json : Type :=
| JStr (s : pystr)
| JObj (fields : list (pystr * json)).

Fixpoint dict_get {V : Type} (k : pystr) (d : list (pystr * V)) : option V :=
  match d with
  | [] => None
  | (k', v) :: d' => if str_eqb k k' then Some v else dict_get k d'
  end.

(** [k in d] *)
Definition dict_mem {V : Type} (k : pystr) (d : list (pystr * V)) : bool :=
  match dict_get k d with Some _ => true | None => false end.

(** [d[k] = v]: an existing key keeps its place, a new one goes last. *)
Fixpoint dict_set {V : Type} (k : pystr) (v : V) (d : list (pystr * V))
  : list (pystr * V) :=
  match d with
  | [] => [(k, v)]
  | (k', v') :: d' =>
      if str_eqb k k' then (k', v) :: d' else (k', v') :: dict_set k v d'
  end.

Definition json_get (k : pystr) (j : json) : option json :=
  match j with
  | JObj fields => dict_get k fields
  | JStr _ => None
  end.

(** Induction on a JSON value, through the fields of a dictionary. *)
Section JsonInduction.
Variable P : json -> Prop.
Hypothesis HStr : forall s, P (JStr s).
Hypothesis HObj :
  forall fields, Forall (fun kv => P (snd kv)) fields -> P (JObj fields).

Fixpoint json_nested_ind (j : json) : P j :=
  match j with
  | JStr s => HStr s
  | JObj fields =>
      HObj fields
        ((fix go (fs : list (pystr * json))
            : Forall (fun kv => P (snd kv)) fs :=
            match fs with
            | [] => Forall_nil _
            | (k, v) :: r =>
                @Forall_cons _ (fun kv => P (snd kv)) (k, v) r
                  (json_nested_ind v) (go r)
            end) fields)
  end.
End JsonInduction.

Definition hex_digit (d : N) : char :=
  (if d <? 10 then 48 + d else 87 + d)%N.

(** The six characters of a [\uXXXX] escape. *)
Definition u_escape (n : N) : pystr :=
  [BACKSLASH; 117%N;
   hex_digit ((n / 4096) mod 16); hex_digit ((n / 256) mod 16);
   hex_digit ((n / 16) mod 16); hex_digit (n mod 16)].

(** One character under [ensure_ascii=True]: printable ASCII other than the
    quote and the backslash is kept, the rest is escaped, code points above
    the basic plane as a surrogate pair. *)
Definition escape_char (c : char) : pystr :=
  (if (32 <=? c) && (c <=? 126) && negb (c =? BACKSLASH) && negb (c =? QUOTE)
   then [c]
   else if c =? BACKSLASH then [BACKSLASH; BACKSLASH]
   else if c =? QUOTE then [BACKSLASH; QUOTE]
   else if c =? 8 then [BACKSLASH; 98]
   else if c =? 12 then [BACKSLASH; 102]
   else if c =? 10 then [BACKSLASH; 110]
   else if c =? 13 then [BACKSLASH; 114]
   else if c =? 9 then [BACKSLASH; 116]
   else if 65536 <=? c
        then u_escape (55232 + c / 1024) ++ u_escape (56320 + c mod 1024)
   else u_escape c)%N.

Definition encode_basestring_ascii (s : pystr) : pystr :=
  [QUOTE] ++ flat_map escape_char s ++ [QUOTE].

(** [json.dumps(j)] with the default separators. *)
Fixpoint json_dumps (j : json) : pystr :=
  match j with
  | JStr s => encode_basestring_ascii s
  | JObj fields =>
      py "{"
      ++ join (py ", ")
           (map (fun kv : pystr * json =>
                   let (k, v) := kv in
                   encode_basestring_ascii k ++ py ": " ++ json_dumps v)
                fields)
      ++ py "}"
  end.

(** The line a generator yields: [json.dumps(ev) + "\n"]. *)
Definition wire (ev : json) : pystr := json_dumps ev ++ [LF].

(** ** Exceptions and the trace monad *)

(** The handlers of the file tell one class from all the others. *)
Inductive exn_class : Type := AnthropicInternalServerError | OtherException.

Module Exn.
Record t : Type := mk { cls : exn_class; str : pystr }.
End Exn.

(** What a call of a collaborator gives back. *)
Inductive result (A : Type) : Type :=
| Ok (a : A)
| Exc (e : Exn.t).
Arguments Ok {A} a.
Arguments Exc {A} e.

Inductive lc_message : Type :=
| HumanMessage (content : pystr)
| AIMessage (content : pystr).

Module Message.
Record t : Type := mk { role : pystr; content : pystr }.
End Message.

Module ChatRequest.
Record t : Type := mk {
    messages : list Message.t;
    model : pystr;
    thread_id : option pystr;
    file_url : option pystr;
    use_agent : bool;
    deep_research : bool;
    stream : bool }.
End ChatRequest.

Module ChatResponse.
Record t : Type := mk { message : Message.t; thread_id : pystr }.
End ChatResponse.

Module ReactAgentRequest.
Record t : Type := mk {
    messages : list Message.t;
    model : pystr;
    thread_id : option pystr;
    file_url : option pystr;
    max_search_results : Z }.
End ReactAgentRequest.

(** The input of the agent graph [agt_graph], with the fields the file
    fills in. *)
Module VaaniState.
Record t : Type := mk {
    messages : list lc_message;
    file_url : option pystr;
    indexed : bool;
    deep_research_requested : bool;
    agent_name : option pystr;
    model_name : pystr;
    reflect_iterations : Z;
    reflection_data : option pystr }.
End VaaniState.

(** The configuration of the ReAct graph. *)
Module Configuration.
Record t : Type := mk {
    model : pystr;
    max_search_results : Z;
    fallback_model : option pystr }.
End Configuration.

(** An entry of a search tool's output: a dictionary read with [get]. *)
Module Item.
Record t : Type := mk { url : option pystr; title : option pystr }.
End Item.

Inductive tool_output : Type :=
| OutputList (items : list Item.t)
| OutputText (s : pystr).

Module ToolCall.
Record t : Type := mk { name : option pystr; output : option tool_output }.
End ToolCall.

(** A message of the result of [agt_graph.invoke], by shape: an object
    with a [content] attribute, a dictionary, anything else; and an object
    with a [content] attribute that also carries tool calls, which the chat
    never reads. *)
Inductive agent_message : Type :=
| MessageObject (content : pystr)
| MessageDict (content : option pystr)
| MessageOther
| MessageToolCalls (content : pystr) (tool_calls : list ToolCall.t).

(** [result["messages"]] when the key is there. *)
Definition agt_result := option (list agent_message).

(** A message of the ReAct graph's result: [tool_calls] is empty when the
    attribute is missing or falsy. *)
Module ReactMessage.
Record t : Type := mk { content : pystr; tool_calls : list ToolCall.t }.
End ReactMessage.

Definition react_result := option (list ReactMessage.t).

(** A piece of a provider stream: an object with a [content] attribute
    and a [delta.content] attribute (either may be missing), or a
    dictionary. *)
Inductive stream_chunk : Type :=
| ChunkObject (content : option pystr) (delta_content : option pystr)
| ChunkDict (content : option pystr).

(** A model client: [invoke] gives the reply's content; [astream], when the
    client has it, gives the pieces that arrive and the exception that ends
    the stream, if one does. *)
Module Client.
Record t : Type := mk {
    invoke : list lc_message -> result pystr;
    astream : option (list lc_message -> list stream_chunk * option Exn.t) }.
End Client.

(** The value stored in the registry: calling it builds the client. *)
Definition model_factory := result Client.t.
Definition registry := list (pystr * model_factory).

(** What a run does that can be seen from outside. *)
Inductive action : Type :=
| Yield (ev : json)
| Construct (name : pystr)
| Invoke (name : pystr) (messages : list lc_message)
| Astream (name : pystr) (messages : list lc_message)
| AgtInvoke (input_state : VaaniState.t) (thread_id : pystr)
| ReactInvoke (messages : list lc_message) (thread_id : pystr)
              (configuration : Configuration.t).

(** A step falls through with a value, leaves the function with [return],
    or raises. *)
Inductive outcome (R A : Type) : Type :=
| Value (a : A)
| Return (r : R)
| Raise (e : Exn.t).
Arguments Value {R A} a.
Arguments Return {R A} r.
Arguments Raise {R A} e.

Definition M (R A : Type) : Type := (list action * outcome R A)%type.

Definition ret {R A} (a : A) : M R A := ([], Value a).
Definition return_ {R A} (r : R) : M R A := ([], Return r).
Definition raise {R A} (e : Exn.t) : M R A := ([], Raise e).
Definition act {R} (a : action) : M R unit := ([a], Value tt).
Definition yield {R} (ev : json) : M R unit := act (Yield ev).

Definition bind {R A B} (m : M R A) (k : A -> M R B) : M R B :=
  match m with
  | (t, Value a) => let (t', o) := k a in (t ++ t', o)
  | (t, Return r) => (t, Return r)
  | (t, Raise e) => (t, Raise e)
  end.

(** [try: m except Exception as e: h e] *)
Definition try_except {R A} (m : M R A) (h : Exn.t -> M R A) : M R A :=
  match m with
  | (t, Raise e) => let (t', o) := h e in (t ++ t', o)
  | _ => m
  end.

Definition lift {R A} (r : result A) : M R A :=
  match r with Ok a => ret a | Exc e => raise e end.

Notation "x <- m ;; k" := (bind m (fun x => k))
  (at level 61, m at next level, right associativity).
Notation "m ;; k" := (bind m (fun _ => k))
  (at level 61, right associativity).

Definition trace {R A} (m : M R A) : list action := fst m.

(** The events of a run, in the order they were yielded. *)
Fixpoint events (t : list action) : list json :=
  match t with
  | [] => []
  | Yield ev :: t' => ev :: events t'
  | _ :: t' => events t'
  end.

(** ** Stream events, as the dictionaries the generators build *)

Definition status_event (status : pystr) : json :=
  JObj [(py "type", JStr (py "status")); (py "status", JStr status)].

Definition chunk_event (chunk thread_id : pystr) : json :=
  JObj [(py "type", JStr (py "chunk")); (py "chunk", JStr chunk);
        (py "thread_id", JStr thread_id)].

Definition result_event (content thread_id : pystr) : json :=
  JObj [(py "type", JStr (py "result"));
        (py "message", JObj [(py "role", JStr (py "assistant"));
                             (py "content", JStr content)]);
        (py "thread_id", JStr thread_id)].

Definition done_event (thread_id : pystr) : json :=
  JObj [(py "type", JStr (py "done")); (py "thread_id", JStr thread_id)].

Definition has_type (ty : string) (ev : json) : bool :=
  match json_get (py "type") ev with
  | Some (JStr s) => str_eqb s (py ty)
  | _ => false
  end.

Arguments has_type ty%_string ev.

Definition is_terminal (ev : json) : bool :=
  has_type "result" ev || has_type "done" ev.

(** The payload of a chunk event. *)
Definition chunk_payload (ev : json) : option pystr :=
  if has_type "chunk" ev then
    match json_get (py "chunk") ev with
    | Some (JStr s) => Some s
    | _ => None
    end
  else None.

(** The payloads of the chunk events of a stream, concatenated in order. *)
Fixpoint chunks_text (evs : list json) : pystr :=
  match evs with
  | [] => []
  | ev :: evs' =>
      match chunk_payload ev with
      | Some s => s ++ chunks_text evs'
      | None => chunks_text evs'
      end
  end.

(** ** The registry of model clients *)

(** [get_model_clients]: two names for each provider whose key is set in the
    environment; [client_for] is the client a name's constructor builds. *)
Definition get_model_clients (getenv : pystr -> option pystr)
    (client_for : pystr -> model_factory) : registry :=
  let add name clients := dict_set name (client_for name) clients in
  let clients := [] in
  let clients :=
    if truthy_opt (getenv (py "OPENAI_API_KEY"))
    then add (py "gpt-4o") (add (py "gpt-4o-mini") clients)
    else clients in
  let clients :=
    if truthy_opt (getenv (py "GOOGLE_API_KEY"))
    then add (py "gemini-1.5-pro") (add (py "gemini-1.5-flash") clients)
    else clients in
  let clients :=
    if truthy_opt (getenv (py "ANTHROPIC_API_KEY"))
    then add (py "claude-3-opus-20240229")
             (add (py "claude-3-haiku-20240307") clients)
    else clients in
  let clients :=
    if truthy_opt (getenv (py "GROQ_API_KEY"))
    then add (py "mixtral-8x7b-32768")
             (add (py "llama-3.3-70b-versatile") clients)
    else clients in
  clients.

Definition keys {V : Type} (d : list (pystr * V)) : list pystr := map fst d.

Definition is_nil {A : Type} (l : list A) : bool :=
  match l with [] => true | _ :: _ => false end.

(** ** Conversion of the client's messages *)

(** [chat], lines 212-225: the loop over [request.messages] and the default
    conversation. *)
Definition chat_langchain_messages (messages : list Message.t)
  : list lc_message :=
  let langchain_messages :=
    fold_left (fun acc msg =>
      if str_eqb (Message.role msg) (py "user") then
        let content :=
          if truthy (Message.content msg) then strip (Message.content msg)
          else py "Hello" in
        acc ++ [HumanMessage content]
      else if str_eqb (Message.role msg) (py "assistant") then
        let content :=
          if truthy (Message.content msg) then strip (Message.content msg)
          else py "I'm an AI assistant." in
        acc ++ [AIMessage content]
      else acc) messages [] in
  if is_nil langchain_messages then [HumanMessage (py "Hello")]
  else langchain_messages.

(** [react_agent_search] and its streaming twin, lines 529-534 and 660-665:
    the same loop without defaults. *)
Definition react_langchain_messages (messages : list Message.t)
  : list lc_message :=
  fold_left (fun acc msg =>
    if str_eqb (Message.role msg) (py "user") then
      acc ++ [HumanMessage (Message.content msg)]
    else if str_eqb (Message.role msg) (py "assistant") then
      acc ++ [AIMessage (Message.content msg)]
    else acc) messages [].

(** ** Source citations *)

(** [format_source_urls] *)
Definition format_source_urls (sources : list Item.t) : pystr :=
  if is_nil sources then []
  else
    let formatted_sources :=
      fold_left (fun acc source =>
        let title :=
          match Item.title source with Some t => t | None => py "Source" end in
        let url := match Item.url source with Some u => u | None => [] end in
        if truthy url then
          let title := strip title in
          let title :=
            if 60 <? List.length title then firstn 57 title ++ py "..."
            else title in
          acc ++ [py "[" ++ title ++ py "](" ++ url ++ py ")"]
        else acc) sources [] in
    if is_nil formatted_sources then []
    else [LF; LF] ++ py "**Sources:**" ++ [LF] ++ join [LF] formatted_sources.

Definition name_is_search (name : option pystr) : bool :=
  match name with Some n => str_eqb n (py "search") | None => false end.

(** Truth value of [tool_call.get("output")]. *)
Definition truthy_output (o : option tool_output) : bool :=
  match o with
  | Some (OutputList items) => negb (is_nil items)
  | Some (OutputText s) => truthy s
  | None => false
  end.

(** The three nested loops that fill [sources], lines 601-612 and 738-749. *)
Definition collect_sources (search_tool_outputs : list ReactMessage.t)
  : list Item.t :=
  fold_left (fun sources msg =>
    fold_left (fun sources tool_call =>
      if name_is_search (ToolCall.name tool_call)
         && truthy_output (ToolCall.output tool_call)
      then
        match ToolCall.output tool_call with
        | Some (OutputList tool_output) =>
            fold_left (fun sources item =>
              if truthy_opt (Item.url item) && truthy_opt (Item.title item)
              then sources ++ [Item.mk (Item.url item) (Item.title item)]
              else sources) tool_output sources
        | _ => sources
        end
      else sources) (ReactMessage.tool_calls msg) sources)
    search_tool_outputs [].

(** The reply text of the ReAct graph's result, lines 593-618 and 730-755
    (the two endpoints carry the same code). *)
Definition react_response_content (result : react_result) : pystr :=
  match result with
  | Some (m :: ms) =>
      let messages := m :: ms in
      let ai_message := last messages m in
      let response_content := ReactMessage.content ai_message in
      let search_tool_outputs :=
        filter (fun msg => negb (is_nil (ReactMessage.tool_calls msg)))
               messages in
      if negb (is_nil search_tool_outputs) then
        let sources := collect_sources search_tool_outputs in
        if negb (is_nil sources)
        then response_content ++ format_source_urls sources
        else response_content
      else response_content
  | _ =>
      py "I couldn't find any useful information. Please try a different query."
  end.

(** The reply text of [agt_graph]'s result, lines 276-287 and 417-426. *)
Definition agent_response_content (result : agt_result) : pystr :=
  match result with
  | Some (m :: ms) =>
      match last (m :: ms) m with
      | MessageObject content => content
      | MessageToolCalls content _ => content
      | MessageDict (Some content) => content
      | _ => py "I couldn't process your request properly."
      end
  | _ =>
      py "I couldn't process your request with the AI agent. Please try again."
  end.

Definition model_mapping : list (pystr * pystr) :=
  [(py "gemini-1.5-flash", py "google/gemini-1.5-flash");
   (py "gpt-4o-mini", py "openai/gpt-4o-mini");
   (py "gpt-4o", py "openai/gpt-4o");
   (py "claude-3-haiku-20240307", py "anthropic/claude-3-haiku-20240307");
   (py "llama-3.3-70b-versatile", py "groq/llama-3.3-70b-versatile");
   (py "mixtral-8x7b-32768", py "groq/mixtral-8x7b-32768")].

(** The configuration the streaming search builds, lines 684-690. *)
Definition react_streaming_configuration (request : ReactAgentRequest.t)
  : Configuration.t :=
  let model := ReactAgentRequest.model request in
  let agent_model :=
    match dict_get model model_mapping with
    | Some m => m
    | None => py "default/" ++ model
    end in
  Configuration.mk agent_model
    (ReactAgentRequest.max_search_results request) None.

(** ** The word buffer of the streaming paths *)

(** [any(char in word for char in ['.', '!', '?', '\n'])] *)
Definition has_terminal_char (word : pystr) : bool :=
  existsb (fun c => char_in c word) [46%N; 33%N; 63%N; LF].

(** The [for word in words] loop, lines 433-446 and 762-775; it leaves the
    buffer and the counter as the last iteration left them. *)
Fixpoint chunk_loop {R : Type} (thread_id : pystr) (words : list pystr)
    (buffer : pystr) (word_count : nat) : M R (pystr * nat) :=
  match words with
  | [] => ret (buffer, word_count)
  | word :: rest =>
      let buffer := buffer ++ word ++ [SP] in
      let word_count := word_count + 1 in
      if (3 <=? word_count) || has_terminal_char word then
        yield (chunk_event buffer thread_id) ;;
        chunk_loop thread_id rest [] 0
      else chunk_loop thread_id rest buffer word_count
  end.

(** The text of one piece of a provider stream, lines 474-480. *)
Definition chunk_content_of (chunk : stream_chunk) : pystr :=
  match chunk with
  | ChunkObject content delta_content =>
      if truthy_opt content then match content with Some c => c | None => [] end
      else if truthy_opt delta_content
           then match delta_content with Some c => c | None => [] end
      else []
  | ChunkDict (Some content) => content
  | ChunkDict None => []
  end.

(** The [async for chunk in stream] loop, lines 472-490. *)
Fixpoint relay_loop {R : Type} (thread_id : pystr) (stream : list stream_chunk)
  : M R unit :=
  match stream with
  | [] => ret tt
  | chunk :: rest =>
      let chunk_content := chunk_content_of chunk in
      (if truthy chunk_content then yield (chunk_event chunk_content thread_id)
       else ret tt) ;;
      relay_loop thread_id rest
  end.

Definition progress_steps : list pystr :=
  [py "Thinking"; py "Processing"; py "Analyzing"; py "Formulating response"].

(** The [while not agent_task.done()] loop, lines 405-411, run [polls]
    times. *)
Fixpoint progress_loop {R : Type} (polls : nat) (step_index : nat)
  : M R unit :=
  match polls with
  | O => ret tt
  | S polls' =>
      yield (status_event (nth step_index progress_steps [] ++ py "...")) ;;
      progress_loop polls' ((step_index + 1) mod (List.length progress_steps))
  end.

(** ** The endpoints *)

(** What a handler hands to the framework. *)
Inductive handler_result : Type :=
| JSONResponse (r : ChatResponse.t)
| StreamingResponse (body : M unit unit).

(** What the client gets: the framework answers 200 with the value a handler
    returns, once it has encoded it, and 500 when an exception leaves the
    handler or the value cannot be encoded. *)
Inductive http_reply : Type :=
| Http200 (body : option handler_result)
| Http500.

(** A surrogate code point, which UTF-8 cannot encode on its own. *)
Definition is_surrogate (c : char) : bool :=
  ((55296 <=? c) && (c <=? 57343))%N.

Definition encodable (s : pystr) : bool :=
  forallb (fun c => negb (is_surrogate c)) s.

(** A [ChatResponse] goes out as UTF-8 JSON: its three strings must be
    encodable. *)
Definition response_encodable (r : ChatResponse.t) : bool :=
  encodable (Message.role (ChatResponse.message r))
  && encodable (Message.content (ChatResponse.message r))
  && encodable (ChatResponse.thread_id r).

(** The lines of a stream come from [json.dumps], which writes ASCII, and
    the status is sent before them: a stream answers 200. *)
Definition serve (m : M handler_result unit) : http_reply :=
  match snd m with
  | Value _ => Http200 None
  | Return (JSONResponse r) =>
      if response_encodable r then Http200 (Some (JSONResponse r))
      else Http500
  | Return (StreamingResponse body) => Http200 (Some (StreamingResponse body))
  | Raise _ => Http500
  end.

Definition assistant (content : pystr) : Message.t :=
  Message.mk (py "assistant") content.

Definition no_api_keys : pystr :=
  py "No API keys are configured. Please add API keys to your .env file.".

Definition service_busy : pystr :=
  py "Sorry, the AI service is currently experiencing high load. Please try again in a few moments or switch to a different model.".

Definition opt_str_eqb (a : option pystr) (b : pystr) : bool :=
  match a with Some x => str_eqb x b | None => false end.

Section Gateway.

(** The module-level registry, built once at import. *)
Variable MODEL_CLIENTS : registry.
(** [agt_graph.invoke(input_state, config)], [config] holding the thread. *)
Variable agt_graph_invoke : VaaniState.t -> pystr -> result agt_result.
(** [react_graph.ainvoke(input_state, config)]. *)
Variable react_graph_ainvoke :
  list lc_message -> pystr -> Configuration.t -> result react_result.
(** [str(uuid.uuid4())]. *)
Variable uuid4 : pystr.
(** How often the streaming chat polls the agent task before it is done. *)
Variable agent_polls : nat.

(** [thread_id or str(uuid.uuid4())] *)
Definition or_uuid (thread_id : option pystr) : pystr :=
  match thread_id with
  | Some t => if truthy t then t else uuid4
  | None => uuid4
  end.

(** [MODEL_CLIENTS[name]()] *)
Definition construct {R : Type} (name : pystr) : M R Client.t :=
  match dict_get name MODEL_CLIENTS with
  | Some factory => act (Construct name) ;; lift factory
  | None => raise (Exn.mk OtherException (py "'" ++ name ++ py "'"))
  end.

(** [next(iter(MODEL_CLIENTS.keys()))] *)
Definition first_key {R : Type} : M R pystr :=
  match keys MODEL_CLIENTS with
  | k :: _ => ret k
  | [] => raise (Exn.mk OtherException [])
  end.

Definition agent_input (messages : list lc_message) (file_url : option pystr)
    (deep_research : bool) (model : pystr) : VaaniState.t :=
  VaaniState.mk messages file_url false deep_research
    (if deep_research then Some (py "web_search_agent") else None)
    model 0%Z None.

(** [stream_chat_response] *)
Definition stream_chat_response (messages : list lc_message) (model : pystr)
    (thread_id : pystr) (use_agent deep_research : bool)
    (file_url : option pystr) : M unit unit :=
  try_except
    (yield (status_event (py "Processing...")) ;;
     model <-
       (if negb (dict_mem model MODEL_CLIENTS) then
          if is_nil MODEL_CLIENTS then
            yield (result_event no_api_keys thread_id) ;;
            return_ tt
          else first_key
        else ret model) ;;
     model_client <- construct model ;;
     if use_agent then
       yield (status_event (py "Running agent...")) ;;
       let input_state := agent_input messages file_url deep_research model in
       try_except
         (act (AgtInvoke input_state thread_id) ;;
          progress_loop agent_polls 0 ;;
          result <- lift (agt_graph_invoke input_state thread_id) ;;
          let response_content := agent_response_content result in
          let words := split SP response_content in
          chunk_loop thread_id words [] 0 ;;
          yield (result_event response_content thread_id))
         (fun invoke_error =>
            yield (result_event
                     (py "I encountered an error with the AI agent: "
                      ++ Exn.str invoke_error) thread_id))
     else
       try_except
         (match Client.astream model_client with
          | Some astream =>
              act (Astream model messages) ;;
              let (stream, failure) := astream messages in
              relay_loop thread_id stream ;;
              match failure with Some e => raise e | None => ret tt end ;;
              yield (done_event thread_id) ;;
              return_ tt
          | None => ret tt
          end)
         (fun model_error =>
            yield (result_event
                     (py "I encountered an error with the " ++ model
                      ++ py " model: " ++ Exn.str model_error) thread_id)))
    (fun e =>
       yield (result_event (py "I encountered an error: " ++ Exn.str e)
                thread_id)).

(** [chat] *)
Definition chat (request : ChatRequest.t) : M handler_result unit :=
  let thread_id := or_uuid (ChatRequest.thread_id request) in
  try_except
    (let stream := ChatRequest.stream request in
     let langchain_messages :=
       chat_langchain_messages (ChatRequest.messages request) in
     let backend_model := ChatRequest.model request in
     if stream then
       return_ (StreamingResponse
                  (stream_chat_response langchain_messages backend_model
                     thread_id (ChatRequest.use_agent request)
                     (ChatRequest.deep_research request)
                     (ChatRequest.file_url request)))
     else
       response_content <-
         (if ChatRequest.use_agent request then
            let input_state :=
              agent_input langchain_messages (ChatRequest.file_url request)
                (ChatRequest.deep_research request) backend_model in
            try_except
              (act (AgtInvoke input_state thread_id) ;;
               result <- lift (agt_graph_invoke input_state thread_id) ;;
               ret (agent_response_content result))
              (fun invoke_error =>
                 return_ (JSONResponse (ChatResponse.mk
                   (assistant (py "I encountered an error with the AI agent: "
                               ++ Exn.str invoke_error)) thread_id)))
          else
            backend_model <-
              (if negb (dict_mem backend_model MODEL_CLIENTS) then
                 if is_nil MODEL_CLIENTS then
                   return_ (JSONResponse (ChatResponse.mk
                              (assistant no_api_keys) thread_id))
                 else first_key
               else ret backend_model) ;;
            try_except
              (model <- construct backend_model ;;
               act (Invoke backend_model langchain_messages) ;;
               lift (Client.invoke model langchain_messages))
              (fun model_error =>
                 return_ (JSONResponse (ChatResponse.mk
                   (assistant (py "I encountered an error with the "
                               ++ backend_model ++ py " model: "
                               ++ Exn.str model_error)) thread_id)))) ;;
       return_ (JSONResponse (ChatResponse.mk (assistant response_content)
                                thread_id)))
    (fun e =>
       return_ (JSONResponse (ChatResponse.mk
         (assistant (py "I encountered an error: " ++ Exn.str e))
         (or_uuid (Some thread_id))))).

(** The configuration [react_agent_search] hands to the graph, lines
    556-579: the mapped model name and the first fallback that is available
    and differs from it. *)
Definition react_configuration (request : ReactAgentRequest.t)
  : Configuration.t :=
  let model := ReactAgentRequest.model request in
  let agent_model :=
    match dict_get model model_mapping with
    | Some m => if truthy m then m else py "default/" ++ model
    | None => py "default/" ++ model
    end in
  let config :=
    Configuration.mk agent_model
      (ReactAgentRequest.max_search_results request) None in
  let available_models := keys MODEL_CLIENTS in
  let fallback_models :=
    fold_left (fun acc model_id =>
      let mapped_name := dict_get model_id model_mapping in
      if existsb (str_eqb model_id) available_models
         && negb (opt_str_eqb mapped_name agent_model)
      then acc ++ [mapped_name] else acc)
      [py "gpt-4o-mini"; py "gemini-1.5-flash"; py "llama-3.3-70b-versatile"]
      [] in
  match fallback_models with
  | f :: _ =>
      Configuration.mk (Configuration.model config)
        (Configuration.max_search_results config) f
  | [] => config
  end.

(** [react_agent_search] *)
Definition react_agent_search (request : ReactAgentRequest.t)
  : M handler_result unit :=
  let thread_id := or_uuid (ReactAgentRequest.thread_id request) in
  try_except
    (let langchain_messages :=
       react_langchain_messages (ReactAgentRequest.messages request) in
     let config := react_configuration request in
     response_content <-
       try_except
         (act (ReactInvoke langchain_messages thread_id config) ;;
          result <-
            lift (react_graph_ainvoke langchain_messages thread_id config) ;;
          ret (react_response_content result))
         (fun agent_error =>
            match Exn.cls agent_error with
            | AnthropicInternalServerError =>
                return_ (JSONResponse (ChatResponse.mk
                           (assistant service_busy) thread_id))
            | OtherException =>
                return_ (JSONResponse (ChatResponse.mk
                  (assistant
                     (py "I encountered an error with the research agent: "
                      ++ Exn.str agent_error)) thread_id))
            end) ;;
     return_ (JSONResponse (ChatResponse.mk (assistant response_content)
                              thread_id)))
    (fun e =>
       return_ (JSONResponse (ChatResponse.mk
         (assistant (py "I encountered an error with the research agent: "
                     ++ Exn.str e))
         (or_uuid (Some thread_id))))).

(** [react_agent_search_streaming.event_generator]; the thread identifier is
    bound before the graph is called, so the handler finds it. *)
Definition event_generator (request : ReactAgentRequest.t) : M unit unit :=
  let thread_id := or_uuid (ReactAgentRequest.thread_id request) in
  try_except
    (yield (status_event (py "Starting research...")) ;;
     let langchain_messages :=
       react_langchain_messages (ReactAgentRequest.messages request) in
     let config := react_streaming_configuration request in
     act (ReactInvoke langchain_messages thread_id config) ;;
     yield (status_event (py "Researching...")) ;;
     result <-
       lift (react_graph_ainvoke langchain_messages thread_id config) ;;
     let response_content := react_response_content result in
     let words := split SP response_content in
     st <- chunk_loop thread_id words [] 0 ;;
     let buffer := fst st in
     (if truthy buffer then yield (chunk_event buffer thread_id)
      else ret tt) ;;
     yield (result_event response_content thread_id))
    (fun e =>
       yield (result_event (py "I encountered an error: " ++ Exn.str e)
                (or_uuid (Some thread_id)))).

(** [react_agent_search_streaming] *)
Definition react_agent_search_streaming (request : ReactAgentRequest.t)
  : M handler_result unit :=
  return_ (StreamingResponse (event_generator request)).

End Gateway.

(** ** The other endpoints and helpers *)

(** [get_available_models]: the value under ["models"]. *)
Definition get_available_models (MODEL_CLIENTS : registry) : list pystr :=
  keys MODEL_CLIENTS.

Definition lc_content (m : lc_message) : pystr :=
  match m with HumanMessage c => c | AIMessage c => c end.

Definition is_human (m : lc_message) : bool :=
  match m with HumanMessage _ => true | AIMessage _ => false end.

(** The roles the conversion loops keep. *)
Definition known_role (msg : Message.t) : bool :=
  str_eqb (Message.role msg) (py "user")
  || str_eqb (Message.role msg) (py "assistant").

(** The calls of [react_graph.ainvoke] in a run. *)
Fixpoint react_calls (t : list action)
  : list (list lc_message * pystr * Configuration.t) :=
  match t with
  | [] => []
  | ReactInvoke messages thread_id configuration :: t' =>
      (messages, thread_id, configuration) :: react_calls t'
  | _ :: t' => react_calls t'
  end.

(** The clients built in a run, by name. *)
Fixpoint constructed (t : list action) : list pystr :=
  match t with
  | [] => []
  | Construct name :: t' => name :: constructed t'
  | _ :: t' => constructed t'
  end.

(** Words as the word buffer holds them: each followed by a space. *)
Definition spell (words : list pystr) : pystr :=
  List.concat (map (fun w => w ++ [SP]) words).

(** A group of words the loop flushes as one chunk: one to three words,
    none but the last with a terminal character, and either three of them or
    a terminal character in the last. *)
Definition flush_group (ws : list pystr) : Prop :=
  ws <> []
  /\ List.length ws <= 3
  /\ Forall (fun w => has_terminal_char w = false) (removelast ws)
  /\ (List.length ws = 3 \/ has_terminal_char (last ws []) = true).

(** [handle_media_generation] *)
Definition handle_media_generation (prompt media_type : pystr)
  : option pystr :=
  if str_eqb media_type (py "image") then
    Some (py "For image generation of '" ++ prompt
          ++ py "', please include image URLs in markdown format: ![Generated Image](URL)")
  else if str_eqb media_type (py "music") then
    Some (py "For music generation of '" ++ prompt
          ++ py "', please include audio URLs directly, preferably as mp3 links.")
  else None.

(** ** File upload

    Paths are POSIX paths.  The clock, the random identifier and the file
    system are outside the file. *)

Definition SLASH : char := 47%N.
Definition DOT : char := 46%N.

(** [s.rfind(c)], with [i] the index of the head of [s]: the index of the
    last [c], or -1. *)
Fixpoint rfind_from (c : char) (s : pystr) (i : Z) : Z :=
  match s with
  | [] => (-1)%Z
  | x :: s' =>
      let k := rfind_from c s' (i + 1) in
      if (0 <=? k)%Z then k else if N.eqb x c then i else (-1)%Z
  end.

Definition rfind (c : char) (s : pystr) : Z := rfind_from c s 0.

(** The [while] of [os.path.splitext], which skips leading dots: is there a
    character other than a dot among the [steps] characters from
    [filenameIndex] on. *)
Fixpoint name_before_dot (p : pystr) (filenameIndex : Z) (steps : nat)
  : bool :=
  match steps with
  | O => false
  | S n =>
      match nth_error p (Z.to_nat filenameIndex) with
      | Some x =>
          if N.eqb x DOT then name_before_dot p (filenameIndex + 1) n
          else true
      | None => true
      end
  end.

(** [os.path.splitext(p)] *)
Definition splitext (p : pystr) : pystr * pystr :=
  let sepIndex := rfind SLASH p in
  let dotIndex := rfind DOT p in
  if (sepIndex <? dotIndex)%Z
     && name_before_dot p (sepIndex + 1) (Z.to_nat (dotIndex - (sepIndex + 1)))
  then (firstn (Z.to_nat dotIndex) p, skipn (Z.to_nat dotIndex) p)
  else (p, []).

Definition starts_with (c : char) (s : pystr) : bool :=
  match s with x :: _ => N.eqb x c | [] => false end.

Definition ends_with (c : char) (s : pystr) : bool :=
  match rev s with x :: _ => N.eqb x c | [] => false end.

(** [os.path.join(a, b)] *)
Definition path_join (a b : pystr) : pystr :=
  if starts_with SLASH b then b
  else if negb (truthy a) || ends_with SLASH a then a ++ b
  else a ++ [SLASH] ++ b.

Definition UPLOAD_DIR : pystr := py "uploads".

(** [str(n)] for a count of seconds. *)
Definition str_of_int (n : N) : pystr :=
  py (NilZero.string_of_uint (N.to_uint n)).

Module UploadFile.
Record t : Type := mk {
  filename : option pystr;
  read : result (list Byte.byte) }.
End UploadFile.

(** The calls an upload makes on the file system, whatever they achieve:
    [open(path, "wb")], [f.write(data)], and the close that ends the [with]
    block.  A call that raises may have changed the file all the same. *)
Inductive fs_action : Type :=
| Open (path : pystr)
| Write (path : pystr) (data : list Byte.byte)
| Close (path : pystr).

Definition fs_path (a : fs_action) : pystr :=
  match a with
  | Open path => path
  | Write path _ => path
  | Close path => path
  end.

Inductive upload_result : Type :=
| FilePath (abs_path : pystr)
| RaisedHTTPException (status_code : N) (detail : pystr).

Section Upload.

(** [int(time.time())] *)
Variable timestamp : N.
(** [uuid.uuid4().hex] *)
Variable uuid_hex : pystr.
(** [open(path, "wb")], [f.write(data)] and the close of the [with] block *)
Variable open_wb : pystr -> result unit.
Variable write : pystr -> list Byte.byte -> result unit.
Variable close : pystr -> result unit.
(** [os.path.abspath] *)
Variable abspath : pystr -> pystr.

(** [handle_file_upload]: the calls made on the file system, and the path
    returned or the exception raised.  The [with] block closes the file
    however its body ends; when the close raises, its exception is the one
    that is caught. *)
Definition handle_file_upload (file : UploadFile.t)
  : list fs_action * upload_result :=
  let failed (e : Exn.t) :=
    RaisedHTTPException 500 (py "Failed to process file: " ++ Exn.str e) in
  match UploadFile.filename file with
  | None =>
      ([], failed (Exn.mk OtherException
                     (py "expected str, bytes or os.PathLike object, not NoneType")))
  | Some filename =>
      let file_extension := snd (splitext filename) in
      let unique_filename :=
        str_of_int timestamp ++ py "_" ++ uuid_hex ++ file_extension in
      let file_path := path_join UPLOAD_DIR unique_filename in
      match open_wb file_path with
      | Exc e => ([Open file_path], failed e)
      | Ok _ =>
          let (calls, body) :=
            match UploadFile.read file with
            | Exc e => ([Open file_path], Exc e)
            | Ok data =>
                ([Open file_path; Write file_path data],
                 write file_path data)
            end in
          (calls ++ [Close file_path],
           match close file_path, body with
           | Exc e, _ => failed e
           | Ok _, Exc e => failed e
           | Ok _, Ok _ => FilePath (abspath file_path)
           end)
      end
  end.

(** [upload_file]: the path under ["file_path"], or the exception the
    framework turns into its status. *)
Definition upload_file (file : UploadFile.t) : list fs_action * upload_result :=
  handle_file_upload file.

End Upload.

(** A string that [strip] leaves as it is: no blank at either end. *)
Definition stripped (s : pystr) : Prop := lstrip s = s /\ rstrip s = s.

Definition is_user (msg : Message.t) : bool :=
  str_eqb (Message.role msg) (py "user").

Definition is_digit (c : char) : bool := ((48 <=? c) && (c <=? 57))%N.

(** ** What the word-buffer loop flushes, and what it keeps

    The chunks the loop yields and the state it ends in, without the monad;
    [chunk_loop_run] ties them to the loop. *)

Fixpoint flushed (words : list pystr) (buffer : pystr) (word_count : nat)
  : list pystr :=
  match words with
  | [] => []
  | word :: rest =>
      if (3 <=? word_count + 1) || has_terminal_char word
      then (buffer ++ word ++ [SP]) :: flushed rest [] 0
      else flushed rest (buffer ++ word ++ [SP]) (word_count + 1)
  end.

Fixpoint remainder (words : list pystr) (buffer : pystr) (word_count : nat)
  : pystr * nat :=
  match words with
  | [] => (buffer, word_count)
  | word :: rest =>
      if (3 <=? word_count + 1) || has_terminal_char word
      then remainder rest [] 0
      else remainder rest (buffer ++ word ++ [SP]) (word_count + 1)
  end.

(** A stream is well terminated when its last event, and no other, is a
    [result] or a [done]. *)
Fixpoint well_terminated (evs : list json) : bool :=
  match evs with
  | [] => false
  | [ev] => is_terminal ev
  | ev :: evs' => negb (is_terminal ev) && well_terminated evs'
  end.

(** What the progress loop yields: [polls] labels in rotation. *)
Fixpoint progress_statuses (polls : nat) (step_index : nat) : list json :=
  match polls with
  | O => []
  | S polls' =>
      status_event (nth step_index progress_steps [] ++ py "...")
      :: progress_statuses polls'
           ((step_index + 1) mod (List.length progress_steps))
  end.

(** The pieces of a provider stream that are relayed: the non-empty ones. *)
Definition relayed (stream : list stream_chunk) : list pystr :=
  filter truthy (map chunk_content_of stream).


(** A character that can stand in a line of the wire as it is. *)
Definition printable (c : char) : bool := ((32 <=? c) && (c <=? 126))%N.

(** The four shapes of an event of a request whose thread is [thread_id].
    The status event has no thread field. *)
Definition well_formed_event (thread_id : pystr) (ev : json) : Prop :=
  (exists s, ev = status_event s)
  \/ (exists c, ev = chunk_event c thread_id)
  \/ (exists c, ev = result_event c thread_id)
  \/ ev = done_event thread_id.

(** The events that come before the end of a stream. *)
Definition progress_event (thread_id : pystr) (ev : json) : Prop :=
  (exists s, ev = status_event s) \/ (exists c, ev = chunk_event c thread_id).

(** A stream in shape: status and chunk events, then a result event or a
    done event; or no end at all, when the request is direct and a client of
    the registry that has no [astream] was built for it. *)
Definition stream_shape (MODEL_CLIENTS : registry) (thread_id : pystr)
    (use_agent : bool) (evs : list json) : Prop :=
  exists body tail,
    evs = body ++ tail
    /\ Forall (progress_event thread_id) body
    /\ ((exists c, tail = [result_event c thread_id])
        \/ tail = [done_event thread_id]
        \/ (tail = [] /\ use_agent = false
            /\ exists name client,
                 dict_get name MODEL_CLIENTS = Some (Ok client)
                 /\ Client.astream client = None)).

(** An entry is cited when it has a url and a title, both non-empty. *)
Definition cited (item : Item.t) : bool :=
  truthy_opt (Item.url item) && truthy_opt (Item.title item).

(** The cited entries of the list-shaped outputs of the tool calls named
    "search", message by message and call by call, in order. *)
Definition cited_items (messages : list ReactMessage.t) : list Item.t :=
  flat_map (fun msg =>
    flat_map (fun tool_call =>
      if name_is_search (ToolCall.name tool_call) then
        match ToolCall.output tool_call with
        | Some (OutputList items) => filter cited items
        | _ => []
        end
      else []) (ReactMessage.tool_calls msg)) messages.

(** The sources of an agent result in the words of the specification: the
    (url, title) pairs of the search records, in their order, none removed. *)
Definition spec_entry (item : Item.t) : list (pystr * pystr) :=
  match Item.url item, Item.title item with
  | Some url, Some title =>
      if truthy url && truthy title then [(url, title)] else []
  | _, _ => []
  end.

Definition spec_search_entries (messages : list ReactMessage.t)
  : list (pystr * pystr) :=
  flat_map (fun msg =>
    flat_map (fun tool_call =>
      if name_is_search (ToolCall.name tool_call) then
        match ToolCall.output tool_call with
        | Some (OutputList items) => flat_map spec_entry items
        | _ => []
        end
      else []) (ReactMessage.tool_calls msg)) messages.

(** A title in at most 60 characters: a longer one is cut to 57 and gets
    three dots. *)
Definition spec_title (title : pystr) : pystr :=
  let t := strip title in
  if 60 <? List.length t then firstn 57 t ++ py "..." else t.

(** A source as a Markdown link. *)
Definition spec_link (entry : pystr * pystr) : pystr :=
  py "[" ++ spec_title (snd entry) ++ py "](" ++ fst entry ++ py ")".

(** The section that closes the reply: a heading and one link a line. *)
Definition spec_sources_section (entries : list (pystr * pystr)) : pystr :=
  [LF; LF] ++ py "**Sources:**" ++ [LF] ++ join [LF] (map spec_link entries).

(** What holds of an event on the wire: its shape, its thread field (none
    on a status event), and its line. *)
Definition on_the_wire (thread_id : pystr) (ev : json) : Prop :=
  well_formed_event thread_id ev
  /\ (if has_type "status" ev
      then json_get (py "thread_id") ev = None
      else json_get (py "thread_id") ev = Some (JStr thread_id))
  /\ wire ev = json_dumps ev ++ [LF]
  /\ ~ In LF (json_dumps ev).

(** ** Sample collaborators and requests *)

Definition agent_says (text : pystr)
  : VaaniState.t -> pystr -> result agt_result :=
  fun _ _ => Ok (Some [MessageObject text]).

Definition agent_raises (e : Exn.t)
  : VaaniState.t -> pystr -> result agt_result :=
  fun _ _ => Exc e.

Definition react_says (messages : list ReactMessage.t)
  : list lc_message -> pystr -> Configuration.t -> result react_result :=
  fun _ _ _ => Ok (Some messages).

Definition react_raises (e : Exn.t)
  : list lc_message -> pystr -> Configuration.t -> result react_result :=
  fun _ _ _ => Exc e.

Definition overloaded : Exn.t :=
  Exn.mk AnthropicInternalServerError (py "Overloaded").

Definition plain_client : Client.t :=
  Client.mk (fun _ => Ok (py "Hi there")) None.

Definition streaming_client : Client.t :=
  Client.mk (fun _ => Ok (py "Hi there"))
    (Some (fun _ => ([ChunkObject (Some (py "Hi")) None;
                      ChunkObject (Some (py " there")) None], None))).

Definition sample_registry : registry :=
  [(py "gpt-4o-mini", Ok streaming_client); (py "gpt-4o", Ok plain_client)].

Definition sample_chat (model : string) (use_agent stream : bool)
  : ChatRequest.t :=
  ChatRequest.mk [Message.mk (py "user") (py "Hi")] (py model)
    (Some (py "t-1")) None use_agent false stream.
Arguments sample_chat model%_string use_agent stream.

Definition sample_search : ReactAgentRequest.t :=
  ReactAgentRequest.mk [Message.mk (py "user") (py "Hi")] (py "gpt-4o-mini")
    (Some (py "t-1")) None 3%Z.

Definition plain_message (text : string) : ReactMessage.t :=
  ReactMessage.mk (py text) [].
Arguments plain_message text%_string.

Definition search_call (url title : string) : ToolCall.t :=
  ToolCall.mk (Some (py "search"))
    (Some (OutputList [Item.mk (Some (py url)) (Some (py title))])).
Arguments search_call (url title)%_string.

(** A result of the ReAct graph with two search records and an answer. *)
Definition cited_result : list ReactMessage.t :=
  [ReactMessage.mk []
     [search_call "https://a.example" "First";
      search_call "https://b.example" "Second"];
   plain_message "Answer"].

Definition sample_upload : UploadFile.t :=
  UploadFile.mk (Some (py "../../etc/cron.d/job.sh")) (Ok []).

(** ** Strings *)

Lemma str_eqb_refl (a : pystr) : str_eqb a a = true.
Proof.
  induction a as [|x a IH]; simpl; [reflexivity|].
  now rewrite N.eqb_refl, IH.
Qed.

Lemma str_eqb_eq (a b : pystr) : str_eqb a b = true <-> a = b.
Proof.
  split; [|intros ->; apply str_eqb_refl].
  revert b; induction a as [|x a IH]; intros [|y b]; simpl; try discriminate.
  - reflexivity.
  - intros H. apply andb_true_iff in H. destruct H as [Hx Hr].
    apply N.eqb_eq in Hx. now rewrite Hx, (IH b Hr).
Qed.

Lemma split_not_nil (sep : char) (s : pystr) : split sep s <> [].
Proof.
  destruct s as [|c s]; simpl; [discriminate|].
  destruct (N.eqb c sep); [discriminate|].
  destruct (split sep s); discriminate.
Qed.

Lemma join_cons (sep x : pystr) (l : list pystr) :
  l <> [] -> join sep (x :: l) = x ++ sep ++ join sep l.
Proof. destruct l; [congruence | reflexivity]. Qed.

(** Joining the pieces of a split with the separator gives the text back. *)
Lemma join_split (sep : char) (s : pystr) : join [sep] (split sep s) = s.
Proof.
  induction s as [|c s IH]; [reflexivity|].
  cbn [split]. destruct (N.eqb c sep) eqn:E.
  - apply N.eqb_eq in E. subst c.
    rewrite join_cons by apply split_not_nil. now rewrite IH.
  - destruct (split sep s) as [|w ws] eqn:S; [now apply split_not_nil in S|].
    rewrite <- IH. destruct ws; reflexivity.
Qed.

(** Every piece followed by the separator: the text and one separator more. *)
Lemma concat_split_sep (sep : char) (s : pystr) :
  List.concat (map (fun w => w ++ [sep]) (split sep s)) = s ++ [sep].
Proof.
  induction s as [|c s IH]; simpl; [reflexivity|].
  destruct (N.eqb c sep) eqn:E.
  - apply N.eqb_eq in E. subst c. simpl. now rewrite IH.
  - destruct (split sep s) as [|w ws] eqn:S; [now apply split_not_nil in S|].
    simpl in *. now rewrite IH.
Qed.

(** ** Traces and events *)

Lemma events_app (t1 t2 : list action) :
  events (t1 ++ t2) = events t1 ++ events t2.
Proof.
  induction t1 as [|a t1 IH]; simpl; [reflexivity|].
  destruct a; simpl; now rewrite IH.
Qed.

Lemma events_yields (evs : list json) : events (map Yield evs) = evs.
Proof. induction evs as [|e evs IH]; simpl; [reflexivity | now rewrite IH]. Qed.

Lemma chunks_text_app (e1 e2 : list json) :
  chunks_text (e1 ++ e2) = chunks_text e1 ++ chunks_text e2.
Proof.
  induction e1 as [|e e1 IH]; simpl; [reflexivity|].
  destruct (chunk_payload e); [rewrite IH; apply app_assoc | exact IH].
Qed.

Lemma chunk_payload_chunk (c tid : pystr) :
  chunk_payload (chunk_event c tid) = Some c.
Proof. reflexivity. Qed.

Lemma chunk_payload_status (s : pystr) : chunk_payload (status_event s) = None.
Proof. reflexivity. Qed.

Lemma chunk_payload_result (c tid : pystr) :
  chunk_payload (result_event c tid) = None.
Proof. reflexivity. Qed.

Lemma chunk_payload_done (tid : pystr) : chunk_payload (done_event tid) = None.
Proof. reflexivity. Qed.

Lemma chunks_text_chunks (tid : pystr) (payloads : list pystr) :
  chunks_text (map (fun c => chunk_event c tid) payloads) = List.concat payloads.
Proof.
  induction payloads as [|c cs IH]; [reflexivity|].
  cbn [map chunks_text]. rewrite chunk_payload_chunk, IH. reflexivity.
Qed.

(** ** Proof steps *)

Ltac run_monad :=
  cbn [bind try_except yield act ret return_ raise lift fst snd trace app].

Ltac run_events :=
  repeat (progress (cbn [events chunks_text app])
          || rewrite events_app || rewrite events_yields
          || rewrite chunks_text_app || rewrite chunks_text_chunks
          || rewrite chunk_payload_chunk || rewrite chunk_payload_status
          || rewrite chunk_payload_result || rewrite chunk_payload_done).

(** ** The word-buffer loop *)

(** The loop never raises and never returns early: it yields the flushed
    chunks and ends in the remainder. *)
Lemma chunk_loop_run (R : Type) (tid : pystr) (words : list pystr) :
  forall buffer word_count,
    @chunk_loop R tid words buffer word_count
    = (map Yield (map (fun c => chunk_event c tid)
                      (flushed words buffer word_count)),
       Value (remainder words buffer word_count)).
Proof.
  induction words as [|w ws IH]; intros buffer n; [reflexivity|].
  cbn [chunk_loop flushed remainder].
  destruct ((3 <=? n + 1) || has_terminal_char w).
  - rewrite IH. reflexivity.
  - apply IH.
Qed.

(** What was flushed and what is left make up the words, each with its
    space, after what the buffer held. *)
Lemma flushed_remainder (words : list pystr) :
  forall buffer word_count,
    List.concat (flushed words buffer word_count)
      ++ fst (remainder words buffer word_count)
    = buffer ++ List.concat (map (fun w => w ++ [SP]) words).
Proof.
  induction words as [|w ws IH]; intros buffer n.
  - simpl. now rewrite app_nil_r.
  - cbn [flushed remainder map List.concat].
    destruct ((3 <=? n + 1) || has_terminal_char w).
    + cbn [List.concat]. rewrite <- app_assoc, (IH [] 0). simpl.
      now rewrite <- !app_assoc.
    + rewrite IH. now rewrite <- !app_assoc.
Qed.

(** The counter stays below three, so a third word always flushes. *)
Lemma remainder_count (words : list pystr) :
  forall buffer word_count,
    word_count < 3 -> snd (remainder words buffer word_count) < 3.
Proof.
  induction words as [|w ws IH]; intros buffer n Hn; [exact Hn|].
  cbn [remainder].
  destruct (3 <=? n + 1) eqn:E; cbn [orb].
  - apply IH. lia.
  - apply Nat.leb_gt in E.
    destruct (has_terminal_char w); apply IH; lia.
Qed.

(** One step of the policy: a word that is the third in the buffer, or that
    carries one of [. ! ? \n], is flushed with the buffer at once. *)
Lemma flushed_step (word : pystr) (rest : list pystr) (buffer : pystr)
    (word_count : nat) :
  3 <= word_count + 1 \/ has_terminal_char word = true ->
  flushed (word :: rest) buffer word_count
  = (buffer ++ word ++ [SP]) :: flushed rest [] 0.
Proof.
  intros H. cbn [flushed].
  assert (E : (3 <=? word_count + 1) || has_terminal_char word = true).
  { destruct H as [H|H]; [apply Nat.leb_le in H; now rewrite H
                         | rewrite H; apply orb_true_r]. }
  now rewrite E.
Qed.

Lemma truthy_false (s : pystr) : truthy s = false -> s = [].
Proof. destruct s; [reflexivity | discriminate]. Qed.

(** ** The round trip of the word buffer *)

(** C1, as amended.  The loop puts one space after every word, the last one
    too.  So what the loop yielded, followed by what it still holds, is the
    source text and one space; and the streaming search, which flushes what
    is left, yields chunks whose payloads concatenate to the reply text
    followed by one space. *)
Theorem C1_chunks_spell_text_and_space :
  forall (react_graph_ainvoke :
            list lc_message -> pystr -> Configuration.t -> result react_result)
         (uuid4 : pystr) (request : ReactAgentRequest.t)
         (result : react_result) (thread_id text : pystr),
    react_graph_ainvoke
      (react_langchain_messages (ReactAgentRequest.messages request))
      (or_uuid uuid4 (ReactAgentRequest.thread_id request))
      (react_streaming_configuration request) = Ok result ->
    (exists buffer word_count,
        snd (@chunk_loop unit thread_id (split SP text) [] 0)
        = Value (buffer, word_count)
        /\ chunks_text
             (events (trace (@chunk_loop unit thread_id (split SP text) [] 0)))
           ++ buffer
           = text ++ [SP])
    /\ chunks_text
         (events (trace (event_generator react_graph_ainvoke uuid4 request)))
       = react_response_content result ++ [SP].
Proof.
  intros ainvoke uuid request result tid text H. split.
  - exists (fst (remainder (split SP text) [] 0)),
           (snd (remainder (split SP text) [] 0)).
    rewrite chunk_loop_run. run_monad. split.
    + now destruct (remainder (split SP text) [] 0).
    + run_events. rewrite flushed_remainder, concat_split_sep. reflexivity.
  - unfold event_generator. rewrite H.
    run_monad. rewrite chunk_loop_run. run_monad.
    pose proof (flushed_remainder
                  (split SP (react_response_content result)) [] 0) as E.
    rewrite concat_split_sep in E. cbn [app] in E.
    destruct (truthy (fst (remainder _ _ _))) eqn:T; run_monad; run_events.
    + rewrite app_nil_r. exact E.
    + apply truthy_false in T. rewrite T in E.
      rewrite !app_nil_r in *. exact E.
Qed.

Lemma C1_chunks_spell_text_and_space_witness :
  chunks_text
    (events (trace (event_generator
                      (react_says [plain_message "Good morning. How are you"])
                      (py "u-1") sample_search)))
  = py "Good morning. How are you ".
Proof.
  exact (proj2 (C1_chunks_spell_text_and_space
                  (react_says [plain_message "Good morning. How are you"])
                  (py "u-1") sample_search
                  (Some [plain_message "Good morning. How are you"])
                  (py "t-1") (py "Hi") eq_refl)).
Defined.

(** C1 as stated fails: for the reply "Hi" the streaming search yields the
    one chunk "Hi " (three characters), which is not the source text. *)
Lemma C1_counterexample :
  react_response_content (Some [plain_message "Hi"]) = py "Hi"
  /\ chunks_text
       (events (trace (event_generator (react_says [plain_message "Hi"])
                         (py "u-1") sample_search)))
     = py "Hi "
  /\ chunks_text
       (events (trace (event_generator (react_says [plain_message "Hi"])
                         (py "u-1") sample_search)))
     <> react_response_content (Some [plain_message "Hi"]).
Proof.
  split; [reflexivity|]. split; [reflexivity|]. vm_compute. discriminate.
Qed.

(** C8, at the failing input.  The agent replies "hello world" to a streaming
    chat: two words, no terminal character, so the loop ends with
    "hello world " in the buffer.  [stream_chat_response] goes straight to the
    result event and yields no chunk; the streaming search, on the same
    text, flushes the remainder as a last chunk. *)
Theorem C8_remainder_dropped_by_streaming_chat :
  events (trace (stream_chat_response sample_registry
                   (agent_says (py "hello world")) 1
                   [HumanMessage (py "Hi")] (py "gpt-4o-mini") (py "t-1")
                   true false None))
  = [status_event (py "Processing..."); status_event (py "Running agent...");
     status_event (py "Thinking...");
     result_event (py "hello world") (py "t-1")]
  /\ remainder (split SP (py "hello world")) [] 0 = (py "hello world ", 2)
  /\ events (trace (event_generator (react_says [plain_message "hello world"])
                      (py "u-1") sample_search))
     = [status_event (py "Starting research...");
        status_event (py "Researching...");
        chunk_event (py "hello world ") (py "t-1");
        result_event (py "hello world") (py "t-1")].
Proof. repeat split; reflexivity. Qed.

(** ** The conversation handed to the backends *)

(** C3, at the failing input.  The test for emptiness comes before the
    [strip]: a content of blanks is truthy, is stripped, and goes on as the
    empty string. *)
Theorem C3_blank_content_becomes_empty :
  chat_langchain_messages
    [Message.mk (py "user") [SP]; Message.mk (py "assistant") [9%N; LF]]
  = [HumanMessage []; AIMessage []].
Proof. reflexivity. Qed.

(** The same for every content made of blanks only: it is truthy, and
    [strip] leaves nothing of it. *)
Lemma lstrip_blank (s : pystr) : forallb is_space s = true -> lstrip s = [].
Proof.
  induction s as [|c s IH]; [reflexivity|]. cbn [forallb lstrip].
  intros H. apply andb_true_iff in H. destruct H as [Hc Hs].
  rewrite Hc. now apply IH.
Qed.

Lemma blank_content_becomes_empty (c : char) (s : pystr) :
  forallb is_space (c :: s) = true ->
  chat_langchain_messages [Message.mk (py "user") (c :: s)]
  = [HumanMessage []]
  /\ chat_langchain_messages [Message.mk (py "assistant") (c :: s)]
     = [AIMessage []].
Proof.
  intros H.
  assert (E : strip (c :: s) = []).
  { unfold strip. now rewrite (lstrip_blank _ H). }
  split; unfold chat_langchain_messages; cbn [fold_left Message.role];
    cbn [Message.content truthy]; rewrite E; reflexivity.
Qed.

(** The half of C3 the code keeps: empty content gets the role's default. *)
Lemma empty_content_gets_default :
  chat_langchain_messages
    [Message.mk (py "user") []; Message.mk (py "assistant") []]
  = [HumanMessage (py "Hello"); AIMessage (py "I'm an AI assistant.")]
  /\ chat_langchain_messages [] = [HumanMessage (py "Hello")].
Proof. split; reflexivity. Qed.

(** ** Resolution of the model name *)

Lemma progress_loop_run (R : Type) (polls : nat) :
  forall step_index,
    @progress_loop R polls step_index
    = (map Yield (progress_statuses polls step_index), Value tt).
Proof.
  induction polls as [|n IH]; intros i; [reflexivity|].
  cbn [progress_loop progress_statuses]. rewrite IH. reflexivity.
Qed.

Lemma relay_loop_run (R : Type) (tid : pystr) (stream : list stream_chunk) :
  @relay_loop R tid stream
  = (map Yield (map (fun c => chunk_event c tid) (relayed stream)), Value tt).
Proof.
  unfold relayed.
  induction stream as [|c cs IH]; [reflexivity|].
  cbn [relay_loop map filter]. rewrite IH.
  destruct (truthy (chunk_content_of c)); reflexivity.
Qed.



Lemma or_uuid_idem (uuid4 : pystr) (thread_id : option pystr) :
  or_uuid uuid4 (Some (or_uuid uuid4 thread_id)) = or_uuid uuid4 thread_id.
Proof.
  unfold or_uuid. destruct thread_id as [t|].
  - destruct (truthy t) eqn:E; [now rewrite E|]. now destruct (truthy uuid4).
  - now destruct (truthy uuid4).
Qed.

Lemma dict_get_mem {V : Type} (k : pystr) (d : list (pystr * V)) (v : V) :
  dict_get k d = Some v -> dict_mem k d = true.
Proof. unfold dict_mem. now intros ->. Qed.

Lemma dict_get_first {V : Type} (k : pystr) (v : V) (d : list (pystr * V)) :
  dict_get k ((k, v) :: d) = Some v.
Proof. cbn [dict_get]. now rewrite str_eqb_refl. Qed.

(** For a name that is not registered, the streaming chat is the streaming
    chat for the first registered name. *)
Lemma stream_chat_response_fallback (k : pystr) (f : model_factory)
    (rest : registry)
    (agt_graph_invoke : VaaniState.t -> pystr -> result agt_result)
    (agent_polls : nat) (messages : list lc_message) (model thread_id : pystr)
    (use_agent deep_research : bool) (file_url : option pystr) :
  dict_mem model ((k, f) :: rest) = false ->
  stream_chat_response ((k, f) :: rest) agt_graph_invoke agent_polls messages
    model thread_id use_agent deep_research file_url
  = stream_chat_response ((k, f) :: rest) agt_graph_invoke agent_polls
      messages k thread_id use_agent deep_research file_url.
Proof.
  intros Hmem. unfold stream_chat_response.
  rewrite Hmem, (dict_get_mem k _ f (dict_get_first k f rest)).
  reflexivity.
Qed.

(** Without any provider key the registry is empty; with the OpenAI key
    set, the first registered name is "gpt-4o-mini". *)
Lemma get_model_clients_no_keys (client_for : pystr -> model_factory) :
  get_model_clients (fun _ => None) client_for = [].
Proof. reflexivity. Qed.

Lemma get_model_clients_first (getenv : pystr -> option pystr)
    (client_for : pystr -> model_factory) :
  truthy_opt (getenv (py "OPENAI_API_KEY")) = true ->
  exists rest,
    get_model_clients getenv client_for
    = (py "gpt-4o-mini", client_for (py "gpt-4o-mini")) :: rest.
Proof.
  intros H. unfold get_model_clients. rewrite H.
  repeat match goal with
         | |- context [if ?b then _ else _] => destruct b
         end; eexists; reflexivity.
Qed.

(** C5, as amended.  A name that is not registered, in a registry that is
    not empty, resolves to the first registered name [k] and to the factory
    stored under it, wherever the chat resolves a name.  The direct chat
    without streaming builds that factory's client, invokes it and returns
    its reply, or the model error text naming [k].  The streaming chat runs
    exactly as it does for the name [k]: the direct stream relays the pieces
    of that client's [astream].  A chat through the agent without streaming
    resolves nothing: it builds no client and hands the agent the name as
    the client gave it. *)
Theorem C5_unknown_model_resolves_to_first_registered :
  forall (k : pystr) (f : model_factory) (rest : registry)
         (agt_graph_invoke : VaaniState.t -> pystr -> result agt_result)
         (uuid4 : pystr) (agent_polls : nat) (request : ChatRequest.t),
    dict_mem (ChatRequest.model request) ((k, f) :: rest) = false ->
    let MODEL_CLIENTS := (k, f) :: rest in
    let thread_id := or_uuid uuid4 (ChatRequest.thread_id request) in
    let conversation :=
      chat_langchain_messages (ChatRequest.messages request) in
    let failed (e : Exn.t) :=
      JSONResponse (ChatResponse.mk
        (assistant (py "I encountered an error with the " ++ k
                    ++ py " model: " ++ Exn.str e)) thread_id) in
    dict_get k MODEL_CLIENTS = Some f
    /\ (ChatRequest.stream request = false ->
        ChatRequest.use_agent request = false ->
        chat MODEL_CLIENTS agt_graph_invoke uuid4 agent_polls request
        = match f with
          | Exc e => ([Construct k], Return (failed e))
          | Ok client =>
              ([Construct k; Invoke k conversation],
               Return
                 match Client.invoke client conversation with
                 | Ok text =>
                     JSONResponse (ChatResponse.mk (assistant text)
                                     thread_id)
                 | Exc e => failed e
                 end)
          end)
    /\ (forall messages thread use_agent deep_research file_url,
        stream_chat_response MODEL_CLIENTS agt_graph_invoke agent_polls
          messages (ChatRequest.model request) thread use_agent
          deep_research file_url
        = stream_chat_response MODEL_CLIENTS agt_graph_invoke agent_polls
            messages k thread use_agent deep_research file_url)
    /\ (forall messages thread deep_research file_url,
        trace (stream_chat_response MODEL_CLIENTS agt_graph_invoke
                 agent_polls messages (ChatRequest.model request) thread
                 false deep_research file_url)
        = match f with
          | Exc e =>
              [Yield (status_event (py "Processing..."));
               Construct k;
               Yield (result_event (py "I encountered an error: "
                                    ++ Exn.str e) thread)]
          | Ok client =>
              match Client.astream client with
              | None =>
                  [Yield (status_event (py "Processing...")); Construct k]
              | Some astream =>
                  [Yield (status_event (py "Processing..."));
                   Construct k; Astream k messages]
                  ++ map Yield
                       (map (fun c => chunk_event c thread)
                            (relayed (fst (astream messages))))
                  ++ [Yield
                        match snd (astream messages) with
                        | None => done_event thread
                        | Some e =>
                            result_event
                              (py "I encountered an error with the " ++ k
                               ++ py " model: " ++ Exn.str e) thread
                        end]
              end
          end)
    /\ (ChatRequest.stream request = false ->
        ChatRequest.use_agent request = true ->
        trace (chat MODEL_CLIENTS agt_graph_invoke uuid4 agent_polls request)
        = [AgtInvoke
             (VaaniState.mk conversation (ChatRequest.file_url request) false
                (ChatRequest.deep_research request)
                (if ChatRequest.deep_research request
                 then Some (py "web_search_agent") else None)
                (ChatRequest.model request) 0%Z None)
             thread_id]).
Proof.
  intros k f rest agt uuid polls request Hmem R tid conversation failed.
  subst R tid conversation failed.
  split; [apply dict_get_first|]. split; [|split; [|split]].
  - intros Hs Ha. unfold chat. rewrite Hs, Ha, Hmem.
    cbn [negb is_nil first_key keys map fst]. run_monad. unfold construct.
    rewrite dict_get_first. run_monad.
    destruct f as [client|e]; run_monad; [|reflexivity].
    destruct (Client.invoke client _); run_monad; reflexivity.
  - intros messages tid ua dr fu.
    now apply stream_chat_response_fallback.
  - intros messages tid dr fu.
    rewrite (stream_chat_response_fallback _ _ _ _ _ _ _ _ _ _ _ Hmem).
    unfold stream_chat_response, construct.
    rewrite (dict_get_mem k _ f (dict_get_first k f rest)).
    cbn [negb]. run_monad. rewrite dict_get_first. run_monad.
    destruct f as [client|e]; run_monad; [|reflexivity].
    destruct (Client.astream client) as [astream|]; run_monad;
      [|reflexivity].
    destruct (astream messages) as [stream [e|]]; rewrite relay_loop_run;
      run_monad; cbn [fst snd]; rewrite ?app_nil_r; reflexivity.
  - intros Hs Ha. unfold chat. rewrite Hs, Ha. run_monad.
    destruct (agt _ _); reflexivity.
Qed.

Lemma C5_unknown_model_resolves_to_first_registered_witness :
  chat sample_registry (agent_says (py "Hi")) (py "u-1") 0
    (sample_chat "no-such-model" false false)
  = ([Construct (py "gpt-4o-mini");
      Invoke (py "gpt-4o-mini") [HumanMessage (py "Hi")]],
     Return (JSONResponse
       (ChatResponse.mk (assistant (py "Hi there")) (py "t-1")))).
Proof.
  exact (proj1 (proj2 (C5_unknown_model_resolves_to_first_registered
                         (py "gpt-4o-mini") (Ok streaming_client)
                         [(py "gpt-4o", Ok plain_client)]
                         (agent_says (py "Hi")) (py "u-1") 0
                         (sample_chat "no-such-model" false false) eq_refl))
               eq_refl eq_refl).
Defined.

(** C5 as stated fails: a chat through the agent without streaming, for a
    name that is not registered in a registry that is not empty, applies no
    fallback; it builds no client and calls the agent with the name that is
    not registered. *)
Lemma C5_counterexample :
  dict_mem (py "no-such-model") sample_registry = false
  /\ chat sample_registry (agent_says (py "Hi there")) (py "u-1") 0
       (sample_chat "no-such-model" true false)
     = ([AgtInvoke
           (VaaniState.mk [HumanMessage (py "Hi")] None false false None
              (py "no-such-model") 0%Z None) (py "t-1")],
        Return (JSONResponse
          (ChatResponse.mk (assistant (py "Hi there")) (py "t-1"))))
  /\ py "no-such-model" <> py "gpt-4o-mini".
Proof.
  split; [reflexivity|]. split; [reflexivity | vm_compute; discriminate].
Qed.



(** ** Replies of the chat endpoint *)

Lemma encodable_app (a b : pystr) :
  encodable (a ++ b) = encodable a && encodable b.
Proof. apply forallb_app. Qed.

Lemma response_encodable_assistant (content thread_id : pystr) :
  response_encodable (ChatResponse.mk (assistant content) thread_id)
  = encodable content && encodable thread_id.
Proof. reflexivity. Qed.

(** What the framework makes of a message a handler returns. *)
Lemma serve_json (m : M handler_result unit) (content thread_id : pystr) :
  snd m = Return (JSONResponse (ChatResponse.mk (assistant content) thread_id))
  -> serve m
     = if encodable content && encodable thread_id
       then Http200 (Some (JSONResponse
              (ChatResponse.mk (assistant content) thread_id)))
       else Http500.
Proof.
  intros H. unfold serve. rewrite H.
  now rewrite response_encodable_assistant.
Qed.

(** Whatever the registry and the collaborators do, a chat without streaming
    returns one message of role "assistant" with the request's thread: no
    exception leaves the handler. *)
Lemma chat_returns (MODEL_CLIENTS : registry)
    (agt_graph_invoke : VaaniState.t -> pystr -> result agt_result)
    (uuid4 : pystr) (agent_polls : nat) (request : ChatRequest.t) :
  ChatRequest.stream request = false ->
  exists content,
    snd (chat MODEL_CLIENTS agt_graph_invoke uuid4 agent_polls request)
    = Return (JSONResponse
        (ChatResponse.mk (assistant content)
           (or_uuid uuid4 (ChatRequest.thread_id request)))).
Proof.
  intros Hs. unfold chat. rewrite Hs.
  destruct (ChatRequest.use_agent request).
  - run_monad. destruct (agt_graph_invoke _ _); run_monad; eauto.
  - destruct (dict_mem _ MODEL_CLIENTS); cbn [negb].
    + run_monad. unfold construct.
      destruct (dict_get _ MODEL_CLIENTS) as [[client|e]|]; run_monad;
        try (destruct (Client.invoke client _); run_monad);
        rewrite ?or_uuid_idem; eauto.
    + destruct MODEL_CLIENTS as [|[k f] rest].
      * cbn [is_nil]. run_monad. eauto.
      * cbn [is_nil first_key keys map fst]. run_monad. unfold construct.
        rewrite dict_get_first. run_monad.
        destruct f as [client|e]; run_monad;
          try (destruct (Client.invoke client _); run_monad);
          rewrite ?or_uuid_idem; eauto.
Qed.

(** C6, as amended.  With an empty registry, a streaming chat answers 200
    with the first status and the missing-configuration result as its whole
    stream, and a chat without streaming and without the agent returns the
    missing-configuration reply.  A chat through the agent without streaming
    does not look at the registry: it calls the agent and returns the
    agent's reply text, or the agent error text.  A returned reply is
    answered with 200 when its text and the thread identifier can be
    encoded, and with 500 when one of them holds a surrogate. *)
Theorem C6_empty_registry_reply :
  forall (agt_graph_invoke : VaaniState.t -> pystr -> result agt_result)
         (uuid4 : pystr) (agent_polls : nat) (request : ChatRequest.t),
    let thread_id := or_uuid uuid4 (ChatRequest.thread_id request) in
    let input_state :=
      VaaniState.mk
        (chat_langchain_messages (ChatRequest.messages request))
        (ChatRequest.file_url request) false
        (ChatRequest.deep_research request)
        (if ChatRequest.deep_research request
         then Some (py "web_search_agent") else None)
        (ChatRequest.model request) 0%Z None in
    let run := chat [] agt_graph_invoke uuid4 agent_polls request in
    (ChatRequest.stream request = true ->
     serve run
     = Http200 (Some (StreamingResponse
         ([Yield (status_event (py "Processing..."));
           Yield (result_event no_api_keys thread_id)], Return tt))))
    /\ (ChatRequest.stream request = false ->
        ChatRequest.use_agent request = false ->
        run = ([], Return (JSONResponse
                 (ChatResponse.mk (assistant no_api_keys) thread_id)))
        /\ serve run
           = if encodable thread_id
             then Http200 (Some (JSONResponse
                    (ChatResponse.mk (assistant no_api_keys) thread_id)))
             else Http500)
    /\ (ChatRequest.stream request = false ->
        ChatRequest.use_agent request = true ->
        let content :=
          match agt_graph_invoke input_state thread_id with
          | Ok result => agent_response_content result
          | Exc e =>
              py "I encountered an error with the AI agent: " ++ Exn.str e
          end in
        run = ([AgtInvoke input_state thread_id],
               Return (JSONResponse
                 (ChatResponse.mk (assistant content) thread_id)))
        /\ serve run
           = if encodable content && encodable thread_id
             then Http200 (Some (JSONResponse
                    (ChatResponse.mk (assistant content) thread_id)))
             else Http500).
Proof.
  intros agt uuid polls request tid input run. subst run.
  split; [|split].
  - intros Hs. unfold chat, serve. rewrite Hs. reflexivity.
  - intros Hs Ha.
    assert (E : chat [] agt uuid polls request
                = ([], Return (JSONResponse
                         (ChatResponse.mk (assistant no_api_keys) tid)))).
    { unfold chat. rewrite Hs, Ha. reflexivity. }
    split; [exact E|].
    rewrite (serve_json _ no_api_keys tid) by now rewrite E.
    reflexivity.
  - intros Hs Ha content.
    assert (E : chat [] agt uuid polls request
                = ([AgtInvoke input tid],
                   Return (JSONResponse
                     (ChatResponse.mk (assistant content) tid)))).
    { unfold chat. rewrite Hs, Ha. unfold agent_input. fold tid.
      fold input. run_monad.
      unfold content. destruct (agt input tid); reflexivity. }
    split; [exact E|]. apply serve_json. now rewrite E.
Qed.

Lemma C6_empty_registry_reply_witness :
  serve (chat [] (agent_says (py "Hi")) (py "u-1") 0
           (sample_chat "gpt-4o-mini" false false))
  = Http200 (Some (JSONResponse
      (ChatResponse.mk (assistant no_api_keys) (py "t-1")))).
Proof.
  exact (proj2 (proj1 (proj2 (C6_empty_registry_reply (agent_says (py "Hi"))
                                (py "u-1") 0
                                (sample_chat "gpt-4o-mini" false false)))
                 eq_refl eq_refl)).
Defined.

(** C6 as stated fails: with an empty registry, a chat through the agent
    without streaming returns the agent's reply, not the advisory text. *)
Lemma C6_counterexample :
  serve (chat [] (agent_says (py "Hi there")) (py "u-1") 0
           (sample_chat "gpt-4o-mini" true false))
  = Http200 (Some (JSONResponse
      (ChatResponse.mk (assistant (py "Hi there")) (py "t-1"))))
  /\ py "Hi there" <> no_api_keys.
Proof. split; [reflexivity | vm_compute; discriminate]. Qed.

(** ** Failures of the agents *)

(** C4, as amended.  When the ReAct graph raises [e], the search endpoint
    returns the service-busy text if [e] is Anthropic's internal server
    error and the generic research-agent text holding [str(e)] otherwise,
    and the streaming search ends its stream with the generic text, whatever
    the class.  When [agt_graph] raises [e], the chat returns the generic
    agent text holding [str(e)], whatever the class; the streaming chat does
    the same in its result event once the client of the model, or of the
    first registered model when the name is not registered, is built.  The
    streams end with that one result event; a returned reply is answered
    with 200 when its text and the thread identifier can be encoded, and
    with 500 when one of them holds a surrogate. *)
Theorem C4_agent_errors_become_replies :
  forall (MODEL_CLIENTS : registry)
         (agt_graph_invoke : VaaniState.t -> pystr -> result agt_result)
         (react_graph_ainvoke :
            list lc_message -> pystr -> Configuration.t -> result react_result)
         (uuid4 : pystr) (agent_polls : nat) (e : Exn.t)
         (request : ChatRequest.t) (search : ReactAgentRequest.t),
    (forall input_state thread_id,
        agt_graph_invoke input_state thread_id = Exc e) ->
    (forall messages thread_id configuration,
        react_graph_ainvoke messages thread_id configuration = Exc e) ->
    ChatRequest.use_agent request = true ->
    let search_thread := or_uuid uuid4 (ReactAgentRequest.thread_id search) in
    let chat_thread := or_uuid uuid4 (ChatRequest.thread_id request) in
    let search_text :=
      match Exn.cls e with
      | AnthropicInternalServerError => service_busy
      | OtherException =>
          py "I encountered an error with the research agent: " ++ Exn.str e
      end in
    let agent_text :=
      py "I encountered an error with the AI agent: " ++ Exn.str e in
    snd (react_agent_search MODEL_CLIENTS react_graph_ainvoke uuid4 search)
    = Return (JSONResponse
        (ChatResponse.mk (assistant search_text) search_thread))
    /\ serve (react_agent_search MODEL_CLIENTS react_graph_ainvoke uuid4
                search)
       = (if encodable search_text && encodable search_thread
          then Http200 (Some (JSONResponse
                 (ChatResponse.mk (assistant search_text) search_thread)))
          else Http500)
    /\ events (trace (event_generator react_graph_ainvoke uuid4 search))
       = [status_event (py "Starting research...");
          status_event (py "Researching...");
          result_event (py "I encountered an error: " ++ Exn.str e)
            search_thread]
    /\ (ChatRequest.stream request = false ->
        snd (chat MODEL_CLIENTS agt_graph_invoke uuid4 agent_polls request)
        = Return (JSONResponse
            (ChatResponse.mk (assistant agent_text) chat_thread))
        /\ serve (chat MODEL_CLIENTS agt_graph_invoke uuid4 agent_polls
                    request)
           = (if encodable agent_text && encodable chat_thread
              then Http200 (Some (JSONResponse
                     (ChatResponse.mk (assistant agent_text) chat_thread)))
              else Http500))
    /\ (forall messages thread_id deep_research file_url,
        (exists client,
            dict_get (ChatRequest.model request) MODEL_CLIENTS
            = Some (Ok client))
        \/ (dict_mem (ChatRequest.model request) MODEL_CLIENTS = false
            /\ exists k client rest, MODEL_CLIENTS = (k, Ok client) :: rest)
        -> events (trace (stream_chat_response MODEL_CLIENTS agt_graph_invoke
                            agent_polls messages (ChatRequest.model request)
                            thread_id true deep_research file_url))
           = [status_event (py "Processing...");
              status_event (py "Running agent...")]
             ++ progress_statuses agent_polls 0
             ++ [result_event agent_text thread_id]).
Proof.
  intros R agt ainvoke uuid polls e request search Hagt Hreact Hua
    sthread cthread stext atext.
  assert (S1 : snd (react_agent_search R ainvoke uuid search)
               = Return (JSONResponse
                   (ChatResponse.mk (assistant stext) sthread))).
  { unfold react_agent_search. rewrite Hreact. run_monad.
    unfold stext. destruct (Exn.cls e); reflexivity. }
  assert (R4 : forall client model messages tid dr fu,
             dict_get model R = Some (Ok client) ->
             events (trace (stream_chat_response R agt polls messages model
                              tid true dr fu))
             = [status_event (py "Processing...");
                status_event (py "Running agent...")]
               ++ progress_statuses polls 0 ++ [result_event atext tid]).
  { intros client model messages tid dr fu Hget.
    unfold stream_chat_response, construct.
    rewrite (dict_get_mem _ _ _ Hget). cbn [negb]. run_monad.
    rewrite Hget. run_monad. rewrite progress_loop_run, Hagt. run_monad.
    run_events. now rewrite app_nil_r. }
  split; [exact S1|]. split; [|split; [|split]].
  - exact (serve_json _ _ _ S1).
  - unfold event_generator. rewrite Hreact. run_monad.
    cbn [events]. unfold sthread. now rewrite or_uuid_idem.
  - intros Hs.
    assert (S3 : snd (chat R agt uuid polls request)
                 = Return (JSONResponse
                     (ChatResponse.mk (assistant atext) cthread))).
    { unfold chat. rewrite Hs, Hua, Hagt. reflexivity. }
    split; [exact S3|]. exact (serve_json _ _ _ S3).
  - intros messages tid dr fu [[client Hget]|[Hmem (k & client & rest & ->)]].
    + exact (R4 client _ messages tid dr fu Hget).
    + rewrite (stream_chat_response_fallback _ _ _ _ _ _ _ _ _ _ _ Hmem).
      exact (R4 client k messages tid dr fu (dict_get_first _ _ _)).
Qed.

Lemma C4_agent_errors_become_replies_witness :
  serve (react_agent_search sample_registry (react_raises overloaded)
           (py "u-1") sample_search)
  = Http200 (Some (JSONResponse
      (ChatResponse.mk (assistant service_busy) (py "t-1")))).
Proof.
  exact (proj1 (proj2 (C4_agent_errors_become_replies sample_registry
                         (agent_raises overloaded) (react_raises overloaded)
                         (py "u-1") 1 overloaded
                         (sample_chat "gpt-4o-mini" true false) sample_search
                         (fun _ _ => eq_refl) (fun _ _ _ => eq_refl)
                         eq_refl))).
Defined.

(** C4 as stated fails: when [agt_graph] raises Anthropic's internal server
    error in a chat with [use_agent], the reply is the generic agent text,
    not the service-busy one. *)
Lemma C4_counterexample :
  serve (chat sample_registry (agent_raises overloaded) (py "u-1") 0
           (sample_chat "gpt-4o-mini" true false))
  = Http200 (Some (JSONResponse
      (ChatResponse.mk
         (assistant (py "I encountered an error with the AI agent: Overloaded"))
         (py "t-1"))))
  /\ py "I encountered an error with the AI agent: Overloaded" <> service_busy.
Proof. split; [reflexivity | vm_compute; discriminate]. Qed.

(** ** Events on the wire *)

Lemma hex_digit_printable (d : N) :
  (d < 16)%N -> printable (hex_digit d) = true.
Proof.
  intros H. unfold printable, hex_digit.
  destruct (d <? 10)%N eqn:E.
  - apply N.ltb_lt in E. apply andb_true_iff. split; apply N.leb_le; lia.
  - apply N.ltb_ge in E. apply andb_true_iff. split; apply N.leb_le; lia.
Qed.

Lemma u_escape_printable (n : N) : forallb printable (u_escape n) = true.
Proof.
  unfold u_escape. cbn [forallb].
  rewrite !hex_digit_printable by (apply N.mod_lt; discriminate).
  reflexivity.
Qed.

Lemma escape_char_printable (c : char) :
  forallb printable (escape_char c) = true.
Proof.
  unfold escape_char.
  destruct ((32 <=? c)%N && (c <=? 126)%N && negb (c =? BACKSLASH)%N
            && negb (c =? QUOTE)%N) eqn:E.
  - cbn [forallb]. unfold printable.
    apply andb_true_iff in E. destruct E as [E _].
    apply andb_true_iff in E. destruct E as [E _].
    now rewrite E.
  - repeat match goal with
           | |- context [if ?b then _ else _] => destruct b
           end;
      try reflexivity; rewrite ?forallb_app, ?u_escape_printable; reflexivity.
Qed.

Lemma encode_printable (s : pystr) :
  forallb printable (encode_basestring_ascii s) = true.
Proof.
  unfold encode_basestring_ascii. rewrite !forallb_app.
  replace (forallb printable (flat_map escape_char s)) with true;
    [reflexivity|].
  induction s as [|c s IH]; [reflexivity|].
  cbn [flat_map]. now rewrite forallb_app, escape_char_printable, <- IH.
Qed.

Lemma join_printable (sep : pystr) (l : list pystr) :
  forallb printable sep = true ->
  Forall (fun s => forallb printable s = true) l ->
  forallb printable (join sep l) = true.
Proof.
  intros Hsep H. induction H as [|x l Hx Hl IH]; [reflexivity|].
  destruct l as [|y l]; [exact Hx|].
  rewrite join_cons by discriminate.
  now rewrite !forallb_app, Hx, Hsep, IH.
Qed.

(** [json.dumps] writes printable ASCII only. *)
Lemma json_dumps_printable (j : json) :
  forallb printable (json_dumps j) = true.
Proof.
  induction j as [s|fields IH] using json_nested_ind.
  - apply encode_printable.
  - cbn [json_dumps]. rewrite !forallb_app.
    rewrite join_printable; [reflexivity | reflexivity |].
    induction IH as [|[k v] r Hv _ IHr]; constructor; [|exact IHr].
    cbn [snd] in Hv. now rewrite !forallb_app, encode_printable, Hv.
Qed.

(** So a line of the wire has one line feed, its last character. *)
Lemma wire_one_line (ev : json) :
  wire ev = json_dumps ev ++ [LF] /\ ~ In LF (json_dumps ev).
Proof.
  split; [reflexivity|]. intros H.
  pose proof (json_dumps_printable ev) as Hp.
  rewrite forallb_forall in Hp. specialize (Hp LF H). discriminate.
Qed.

(** ** The shape of a stream *)

Lemma progress_statuses_shape (tid : pystr) (polls : nat) :
  forall step_index,
    Forall (progress_event tid) (progress_statuses polls step_index).
Proof.
  induction polls as [|n IH]; intros i; cbn [progress_statuses]; constructor.
  - left. eauto.
  - apply IH.
Qed.

Lemma chunks_shape (tid : pystr) (payloads : list pystr) :
  Forall (progress_event tid) (map (fun c => chunk_event c tid) payloads).
Proof.
  induction payloads as [|c cs IH]; cbn [map]; constructor; [|exact IH].
  right. eauto.
Qed.

Ltac solve_body :=
  repeat first
    [ apply Forall_nil
    | apply Forall_cons; [left; eexists; reflexivity|]
    | apply Forall_cons; [right; eexists; reflexivity|]
    | apply Forall_app; split
    | apply progress_statuses_shape
    | apply chunks_shape ].

Ltac give_shape body tail :=
  exists body, tail; split;
  [ cbn [app]; rewrite <- ?app_assoc; cbn [app]; rewrite ?app_nil_r;
    reflexivity
  | split; [solve_body | eauto 8] ].

(** The events of the streaming chat for a registered name. *)
Lemma stream_chat_response_shape_registered (MODEL_CLIENTS : registry)
    (agt_graph_invoke : VaaniState.t -> pystr -> result agt_result)
    (agent_polls : nat) (messages : list lc_message) (model thread_id : pystr)
    (use_agent deep_research : bool) (file_url : option pystr) :
  dict_mem model MODEL_CLIENTS = true ->
  stream_shape MODEL_CLIENTS thread_id use_agent
    (events (trace (stream_chat_response MODEL_CLIENTS agt_graph_invoke
                      agent_polls messages model thread_id use_agent
                      deep_research file_url))).
Proof.
  intros Hmem.
  set (st := status_event (py "Processing...")).
  set (run := status_event (py "Running agent...")).
  unfold stream_shape, stream_chat_response. rewrite Hmem. fold st. fold run.
  cbn [negb]. run_monad. unfold construct.
  destruct (dict_get model MODEL_CLIENTS) as [[client|e]|] eqn:G; run_monad.
  - destruct use_agent; run_monad.
    + rewrite progress_loop_run. run_monad.
      destruct (agt_graph_invoke _ _) as [result|e]; run_monad.
      * rewrite chunk_loop_run. run_monad. run_events.
        give_shape
          (st :: run :: progress_statuses agent_polls 0
           ++ map (fun c => chunk_event c thread_id)
                (flushed (split SP (agent_response_content result)) [] 0))
          [result_event (agent_response_content result) thread_id].
      * run_events.
        give_shape (st :: run :: progress_statuses agent_polls 0)
          [result_event (py "I encountered an error with the AI agent: "
                         ++ Exn.str e) thread_id].
    + destruct (Client.astream client) as [astream|] eqn:A; run_monad.
      * destruct (astream messages) as [stream [e|]];
          rewrite relay_loop_run; run_monad; run_events.
        -- give_shape
             (st :: map (fun c => chunk_event c thread_id) (relayed stream))
             [result_event (py "I encountered an error with the " ++ model
                            ++ py " model: " ++ Exn.str e) thread_id].
        -- give_shape
             (st :: map (fun c => chunk_event c thread_id) (relayed stream))
             [done_event thread_id].
      * run_events. give_shape [st] (@nil json).
  - run_events. give_shape [st]
      [result_event (py "I encountered an error: " ++ Exn.str e) thread_id].
  - unfold dict_mem in Hmem. rewrite G in Hmem. discriminate.
Qed.

(** The events of the streaming chat, whatever the name and the registry. *)
Lemma stream_chat_response_shape (MODEL_CLIENTS : registry)
    (agt_graph_invoke : VaaniState.t -> pystr -> result agt_result)
    (agent_polls : nat) (messages : list lc_message) (model thread_id : pystr)
    (use_agent deep_research : bool) (file_url : option pystr) :
  stream_shape MODEL_CLIENTS thread_id use_agent
    (events (trace (stream_chat_response MODEL_CLIENTS agt_graph_invoke
                      agent_polls messages model thread_id use_agent
                      deep_research file_url))).
Proof.
  destruct (dict_mem model MODEL_CLIENTS) eqn:Hmem.
  - now apply stream_chat_response_shape_registered.
  - destruct MODEL_CLIENTS as [|[k f] rest].
    + unfold stream_shape, stream_chat_response.
      cbn [dict_mem dict_get negb is_nil]. run_monad. run_events.
      give_shape [status_event (py "Processing...")]
        [result_event no_api_keys thread_id].
    + rewrite (stream_chat_response_fallback _ _ _ _ _ _ _ _ _ _ _ Hmem).
      apply stream_chat_response_shape_registered.
      exact (dict_get_mem k _ f (dict_get_first k f rest)).
Qed.

(** The events of the streaming search: status and chunk events, then one
    result event. *)
Lemma event_generator_shape
    (react_graph_ainvoke :
       list lc_message -> pystr -> Configuration.t -> result react_result)
    (uuid4 : pystr) (request : ReactAgentRequest.t) :
  let thread_id := or_uuid uuid4 (ReactAgentRequest.thread_id request) in
  exists body c,
    events (trace (event_generator react_graph_ainvoke uuid4 request))
    = body ++ [result_event c thread_id]
    /\ Forall (progress_event thread_id) body.
Proof.
  intros tid. unfold event_generator. fold tid. run_monad.
  destruct (react_graph_ainvoke _ _ _) as [result|e]; run_monad.
  - rewrite chunk_loop_run. run_monad.
    destruct (truthy (fst (remainder _ _ _))); run_monad; run_events.
    + exists (status_event (py "Starting research...")
              :: status_event (py "Researching...")
              :: map (fun c => chunk_event c tid)
                   (flushed (split SP (react_response_content result)) [] 0)
              ++ [chunk_event
                    (fst (remainder
                            (split SP (react_response_content result)) [] 0))
                    tid]),
             (react_response_content result).
      split; [cbn [app]; now rewrite <- ?app_assoc | solve_body].
    + exists (status_event (py "Starting research...")
              :: status_event (py "Researching...")
              :: map (fun c => chunk_event c tid)
                   (flushed (split SP (react_response_content result)) [] 0)),
             (react_response_content result).
      split; [cbn [app]; now rewrite ?app_nil_r | solve_body].
  - run_events. unfold tid. rewrite or_uuid_idem.
    exists [status_event (py "Starting research...");
            status_event (py "Researching...")],
           (py "I encountered an error: " ++ Exn.str e).
    split; [reflexivity | solve_body].
Qed.

Lemma progress_event_not_terminal (tid : pystr) (ev : json) :
  progress_event tid ev -> is_terminal ev = false.
Proof. intros [[s ->]|[c ->]]; reflexivity. Qed.

Lemma well_terminated_end (tid : pystr) (body : list json) (t : json) :
  Forall (progress_event tid) body ->
  well_terminated (body ++ [t]) = is_terminal t.
Proof.
  induction 1 as [|ev body Hev _ IH]; [reflexivity|].
  cbn [app well_terminated].
  rewrite (progress_event_not_terminal _ _ Hev), IH.
  destruct (body ++ [t]) eqn:E; [now destruct body | reflexivity].
Qed.

Lemma well_terminated_no_end (tid : pystr) (body : list json) :
  Forall (progress_event tid) body -> well_terminated body = false.
Proof.
  induction 1 as [|ev body Hev _ IH]; [reflexivity|].
  cbn [well_terminated]. rewrite (progress_event_not_terminal _ _ Hev), IH.
  now destruct body.
Qed.

(** The part of C2 that holds: the streaming chat ends its stream with one
    result or done event, unless the request is direct and the client has no
    [astream]; the streaming search always does. *)
Lemma stream_chat_response_terminated (MODEL_CLIENTS : registry)
    (agt_graph_invoke : VaaniState.t -> pystr -> result agt_result)
    (agent_polls : nat) (messages : list lc_message) (model thread_id : pystr)
    (use_agent deep_research : bool) (file_url : option pystr) :
  well_terminated
    (events (trace (stream_chat_response MODEL_CLIENTS agt_graph_invoke
                      agent_polls messages model thread_id use_agent
                      deep_research file_url))) = true
  \/ (use_agent = false
      /\ exists name client,
           dict_get name MODEL_CLIENTS = Some (Ok client)
           /\ Client.astream client = None).
Proof.
  destruct (stream_chat_response_shape MODEL_CLIENTS agt_graph_invoke
              agent_polls messages model thread_id use_agent deep_research
              file_url) as (body & tail & -> & Hb & [[c ->]|[->|[_ H]]]).
  - left. now rewrite (well_terminated_end thread_id).
  - left. now rewrite (well_terminated_end thread_id).
  - right. exact H.
Qed.

Lemma event_generator_terminated
    (react_graph_ainvoke :
       list lc_message -> pystr -> Configuration.t -> result react_result)
    (uuid4 : pystr) (request : ReactAgentRequest.t) :
  well_terminated
    (events (trace (event_generator react_graph_ainvoke uuid4 request)))
  = true.
Proof.
  destruct (event_generator_shape react_graph_ainvoke uuid4 request)
    as (body & c & -> & Hb).
  now rewrite (well_terminated_end _ _ _ Hb).
Qed.




Lemma well_formed_on_the_wire (tid : pystr) (ev : json) :
  well_formed_event tid ev -> on_the_wire tid ev.
Proof.
  intros H. split; [exact H|]. split; [|apply wire_one_line].
  destruct H as [[s ->]|[[c ->]|[[c ->]| ->]]]; reflexivity.
Qed.

Lemma progress_event_well_formed (tid : pystr) (ev : json) :
  progress_event tid ev -> well_formed_event tid ev.
Proof. intros [H|H]; [left | right; left]; exact H. Qed.

(** C9, as amended.  Every event of the streaming chat and of the streaming
    search is a status, chunk, result or done dictionary with its [type] and
    its payload; chunk, result and done events carry the request's
    [thread_id], a status event carries none; and the line written for an
    event is its [json.dumps] text, free of line feeds, followed by one. *)
Theorem C9_events_on_the_wire :
  forall (MODEL_CLIENTS : registry)
         (agt_graph_invoke : VaaniState.t -> pystr -> result agt_result)
         (react_graph_ainvoke :
            list lc_message -> pystr -> Configuration.t -> result react_result)
         (uuid4 : pystr) (agent_polls : nat) (messages : list lc_message)
         (model thread_id : pystr) (use_agent deep_research : bool)
         (file_url : option pystr) (search : ReactAgentRequest.t) (ev : json),
    (In ev (events (trace (stream_chat_response MODEL_CLIENTS agt_graph_invoke
                             agent_polls messages model thread_id use_agent
                             deep_research file_url))) ->
     on_the_wire thread_id ev)
    /\ (In ev (events (trace (event_generator react_graph_ainvoke uuid4
                                search))) ->
        on_the_wire (or_uuid uuid4 (ReactAgentRequest.thread_id search)) ev).
Proof.
  intros R agt ainvoke uuid polls messages model tid ua dr fu search ev.
  split; intros Hin; apply well_formed_on_the_wire.
  - destruct (stream_chat_response_shape R agt polls messages model tid ua dr
                fu) as (body & tail & E & Hb & Ht).
    rewrite E in Hin. apply in_app_or in Hin. destruct Hin as [Hin|Hin].
    + rewrite Forall_forall in Hb. now apply progress_event_well_formed, Hb.
    + destruct Ht as [[c ->]|[->|[-> _]]]; [| |destruct Hin];
        destruct Hin as [<-|[]].
      * right. right. left. eauto.
      * right. right. right. reflexivity.
  - destruct (event_generator_shape ainvoke uuid search)
      as (body & c & E & Hb).
    rewrite E in Hin. apply in_app_or in Hin. destruct Hin as [Hin|[<-|[]]].
    + rewrite Forall_forall in Hb. now apply progress_event_well_formed, Hb.
    + right. right. left. eauto.
Qed.

Lemma C9_events_on_the_wire_witness :
  on_the_wire (py "t-1") (status_event (py "Processing...")).
Proof.
  exact (proj1 (C9_events_on_the_wire sample_registry (agent_says (py "Hi"))
                  (react_says [plain_message "Hi"]) (py "u-1") 0
                  [HumanMessage (py "Hi")] (py "gpt-4o-mini") (py "t-1")
                  false false None sample_search
                  (status_event (py "Processing...")))
               (or_introl eq_refl)).
Defined.

(** C9 as stated fails: the first event of every streaming chat is a status
    event, and it has no [thread_id] field. *)
Lemma C9_counterexample :
  In (status_event (py "Processing..."))
     (events (trace (stream_chat_response sample_registry
                       (agent_says (py "Hi")) 0 [HumanMessage (py "Hi")]
                       (py "gpt-4o-mini") (py "t-1") false false None)))
  /\ json_get (py "thread_id") (status_event (py "Processing...")) = None.
Proof. split; [left; reflexivity | reflexivity]. Qed.

(** ** Source citations *)

Lemma collect_items (items : list Item.t) :
  forall sources,
    fold_left (fun sources item =>
                 if truthy_opt (Item.url item) && truthy_opt (Item.title item)
                 then sources ++ [Item.mk (Item.url item) (Item.title item)]
                 else sources) items sources
    = sources ++ filter cited items.
Proof.
  induction items as [|[u t] items IH]; intros sources; cbn [fold_left filter].
  - now rewrite app_nil_r.
  - rewrite IH. unfold cited at 2. cbn [Item.url Item.title].
    destruct (truthy_opt u && truthy_opt t); [|reflexivity].
    now rewrite <- app_assoc.
Qed.

Lemma collect_tool_calls (tool_calls : list ToolCall.t) :
  forall sources,
    fold_left (fun sources tool_call =>
      if name_is_search (ToolCall.name tool_call)
         && truthy_output (ToolCall.output tool_call)
      then
        match ToolCall.output tool_call with
        | Some (OutputList tool_output) =>
            fold_left (fun sources item =>
              if truthy_opt (Item.url item) && truthy_opt (Item.title item)
              then sources ++ [Item.mk (Item.url item) (Item.title item)]
              else sources) tool_output sources
        | _ => sources
        end
      else sources) tool_calls sources
    = sources
      ++ flat_map (fun tool_call =>
           if name_is_search (ToolCall.name tool_call) then
             match ToolCall.output tool_call with
             | Some (OutputList items) => filter cited items
             | _ => []
             end
           else []) tool_calls.
Proof.
  induction tool_calls as [|[name output] tcs IH]; intros sources;
    cbn [fold_left flat_map].
  - now rewrite app_nil_r.
  - rewrite IH. cbn [ToolCall.name ToolCall.output].
    destruct (name_is_search name); cbn [andb]; [|reflexivity].
    destruct output as [[items|s]|]; cbn [truthy_output].
    + destruct items as [|i items]; cbn [is_nil negb]; [reflexivity|].
      rewrite collect_items. now rewrite <- app_assoc.
    + now destruct (truthy s).
    + reflexivity.
Qed.

Lemma collect_messages (messages : list ReactMessage.t) :
  forall sources,
    fold_left (fun sources msg =>
      fold_left (fun sources tool_call =>
        if name_is_search (ToolCall.name tool_call)
           && truthy_output (ToolCall.output tool_call)
        then
          match ToolCall.output tool_call with
          | Some (OutputList tool_output) =>
              fold_left (fun sources item =>
                if truthy_opt (Item.url item) && truthy_opt (Item.title item)
                then sources ++ [Item.mk (Item.url item) (Item.title item)]
                else sources) tool_output sources
          | _ => sources
          end
        else sources) (ReactMessage.tool_calls msg) sources)
      messages sources
    = sources ++ cited_items messages.
Proof.
  unfold cited_items.
  induction messages as [|m ms IH]; intros sources; cbn [fold_left flat_map].
  - now rewrite app_nil_r.
  - rewrite IH, collect_tool_calls. now rewrite <- app_assoc.
Qed.

(** The three loops collect the cited entries, in order, each as often as
    it occurs. *)
Lemma collect_sources_cited (messages : list ReactMessage.t) :
  collect_sources messages = cited_items messages.
Proof. unfold collect_sources. now rewrite collect_messages. Qed.

Lemma cited_items_filter (messages : list ReactMessage.t) :
  cited_items
    (filter (fun msg => negb (is_nil (ReactMessage.tool_calls msg))) messages)
  = cited_items messages.
Proof.
  unfold cited_items.
  induction messages as [|m ms IH]; [reflexivity|].
  cbn [filter flat_map].
  destruct (ReactMessage.tool_calls m) eqn:E; cbn [is_nil negb].
  - exact IH.
  - cbn [flat_map]. rewrite E, IH. reflexivity.
Qed.

Lemma spec_entry_cited (item : Item.t) :
  spec_entry item
  = if cited item
    then match Item.url item, Item.title item with
         | Some u, Some t => [(u, t)]
         | _, _ => []
         end
    else [].
Proof.
  destruct item as [[u|] [t|]]; unfold spec_entry, cited;
    cbn [Item.url Item.title truthy_opt]; try reflexivity.
  - now destruct (truthy u).
Qed.

Lemma spec_entries_filter (items : list Item.t) :
  flat_map spec_entry (filter cited items) = flat_map spec_entry items.
Proof.
  induction items as [|i items IH]; [reflexivity|].
  cbn [filter flat_map]. destruct (cited i) eqn:E.
  - cbn [flat_map]. now rewrite IH.
  - rewrite IH, (spec_entry_cited i), E. reflexivity.
Qed.

(** The cited entries, read as pairs, are the sources of the specification. *)
Lemma cited_items_entries (messages : list ReactMessage.t) :
  flat_map spec_entry (cited_items messages) = spec_search_entries messages.
Proof.
  unfold cited_items, spec_search_entries.
  induction messages as [|m ms IH]; [reflexivity|].
  cbn [flat_map]. rewrite flat_map_app, IH. f_equal.
  induction (ReactMessage.tool_calls m) as [|tc tcs IHt]; [reflexivity|].
  cbn [flat_map]. rewrite flat_map_app, IHt. f_equal.
  destruct (name_is_search (ToolCall.name tc)); [|reflexivity].
  destruct (ToolCall.output tc) as [[items|s]|]; try reflexivity.
  apply spec_entries_filter.
Qed.

Lemma cited_items_all_cited (messages : list ReactMessage.t) :
  Forall (fun item => cited item = true) (cited_items messages).
Proof.
  apply Forall_forall. intros item Hin. unfold cited_items in Hin.
  apply in_flat_map in Hin. destruct Hin as (m & _ & Hin).
  apply in_flat_map in Hin. destruct Hin as (tc & _ & Hin).
  destruct (name_is_search (ToolCall.name tc)); [|destruct Hin].
  destruct (ToolCall.output tc) as [[items|s]|]; try destruct Hin.
  now apply filter_In in Hin.
Qed.

Lemma format_links (sources : list Item.t) :
  Forall (fun item => cited item = true) sources ->
  forall acc,
    fold_left (fun acc source =>
      let title :=
        match Item.title source with Some t => t | None => py "Source" end in
      let url := match Item.url source with Some u => u | None => [] end in
      if truthy url then
        let title := strip title in
        let title :=
          if 60 <? List.length title then firstn 57 title ++ py "..."
          else title in
        acc ++ [py "[" ++ title ++ py "](" ++ url ++ py ")"]
      else acc) sources acc
    = acc ++ map spec_link (flat_map spec_entry sources).
Proof.
  induction 1 as [|[u t] sources Hc _ IH]; intros acc;
    cbn [fold_left flat_map].
  - now rewrite app_nil_r.
  - rewrite IH, spec_entry_cited, Hc. unfold cited in Hc.
    cbn [Item.url Item.title] in *.
    destruct u as [u|]; [|discriminate Hc].
    destruct t as [t|]; [|now rewrite andb_false_r in Hc].
    apply andb_true_iff in Hc. destruct Hc as [Hu _].
    cbn [truthy_opt] in Hu. rewrite Hu.
    cbn [app map]. now rewrite <- app_assoc.
Qed.

(** On cited sources, [format_source_urls] writes the section of the
    specification. *)
Lemma format_source_urls_section (sources : list Item.t) :
  sources <> [] ->
  Forall (fun item => cited item = true) sources ->
  format_source_urls sources
  = spec_sources_section (flat_map spec_entry sources).
Proof.
  intros Hne Hc. unfold format_source_urls.
  destruct sources as [|s0 sources]; [congruence|]. cbn [is_nil].
  rewrite (format_links _ Hc). cbn [app].
  inversion Hc as [|? ? Hs0 _]; subst.
  cbn [flat_map]. rewrite (spec_entry_cited s0), Hs0.
  unfold cited in Hs0.
  destruct (Item.url s0) as [u|]; [|discriminate Hs0].
  destruct (Item.title s0) as [t|]; [|now rewrite andb_false_r in Hs0].
  reflexivity.
Qed.

Lemma spec_title_length (title : pystr) :
  List.length (spec_title title) <= 60
  /\ (60 < List.length (strip title) ->
      spec_title title = firstn 57 (strip title) ++ py "..."
      /\ List.length (spec_title title) = 60).
Proof.
  unfold spec_title. cbv zeta.
  destruct (60 <? List.length (strip title)) eqn:E.
  - apply Nat.ltb_lt in E.
    assert (L : List.length (firstn 57 (strip title) ++ py "...") = 60).
    { rewrite length_app, firstn_length_le by lia. reflexivity. }
    rewrite L. split; [lia | auto].
  - apply Nat.ltb_ge in E. split; [exact E | lia].
Qed.

(** The reply text of a result that has sources. *)
Lemma react_response_content_sources (m : ReactMessage.t)
    (ms : list ReactMessage.t) :
  spec_search_entries (m :: ms) <> [] ->
  react_response_content (Some (m :: ms))
  = ReactMessage.content (last (m :: ms) m)
    ++ spec_sources_section (spec_search_entries (m :: ms)).
Proof.
  intros Hne. unfold react_response_content.
  rewrite collect_sources_cited, cited_items_filter.
  assert (Hc : cited_items (m :: ms) <> []).
  { intros E. apply Hne. now rewrite <- cited_items_entries, E. }
  destruct (filter _ (m :: ms)) as [|x xs] eqn:F.
  - exfalso. apply Hc. rewrite <- cited_items_filter, F. reflexivity.
  - cbn [is_nil negb].
    pose proof (cited_items_all_cited (m :: ms)) as Ha.
    rewrite <- cited_items_entries.
    destruct (cited_items (m :: ms)) as [|c cs]; [congruence|].
    cbn [is_nil negb]. now rewrite format_source_urls_section.
Qed.

(** The streaming search on a result of the graph: the chunks spell the reply
    text and one space, and the result event carries the reply text. *)
Lemma event_generator_ok
    (react_graph_ainvoke :
       list lc_message -> pystr -> Configuration.t -> result react_result)
    (uuid4 : pystr) (request : ReactAgentRequest.t) (result : react_result) :
  let thread_id := or_uuid uuid4 (ReactAgentRequest.thread_id request) in
  react_graph_ainvoke
    (react_langchain_messages (ReactAgentRequest.messages request))
    thread_id (react_streaming_configuration request) = Ok result ->
  exists body,
    events (trace (event_generator react_graph_ainvoke uuid4 request))
    = body ++ [result_event (react_response_content result) thread_id]
    /\ Forall (progress_event thread_id) body
    /\ chunks_text body = react_response_content result ++ [SP].
Proof.
  intros tid H. unfold event_generator. fold tid. rewrite H.
  run_monad. rewrite chunk_loop_run. run_monad.
  pose proof (flushed_remainder
                (split SP (react_response_content result)) [] 0) as E.
  rewrite concat_split_sep in E. cbn [app] in E.
  destruct (truthy (fst (remainder _ _ _))) eqn:T; run_monad;
    cbn [events app]; rewrite events_app, events_yields.
  - exists (status_event (py "Starting research...")
            :: status_event (py "Researching...")
            :: map (fun c => chunk_event c tid)
                 (flushed (split SP (react_response_content result)) [] 0)
            ++ [chunk_event
                  (fst (remainder
                          (split SP (react_response_content result)) [] 0))
                  tid]).
    split; [cbn [events app]; now rewrite <- app_assoc|].
    split; [solve_body|]. run_events. now rewrite app_nil_r.
  - exists (status_event (py "Starting research...")
            :: status_event (py "Researching...")
            :: map (fun c => chunk_event c tid)
                 (flushed (split SP (react_response_content result)) [] 0)).
    split; [reflexivity|]. split; [solve_body|]. run_events.
    apply truthy_false in T. rewrite T, app_nil_r in E. exact E.
Qed.

(** C7, as amended.  When the messages of the ReAct graph's result hold
    search records with cited entries, the reply text is the last message's
    content followed by the Sources section: one link a line, for the
    (url, title) pairs of the records in their order, none removed.  The
    search endpoint returns that text, answered with 200 when the text and
    the thread identifier can be encoded and with 500 when one of them
    holds a surrogate, and the streaming search ends
    with it in its result event.  A title is stripped and written in at
    most 60 characters: one longer than 60 keeps its first 57 and ends in
    three dots.  The chat through the agent appends nothing: its reply is
    the content of the last message of the agent's result, tool calls or
    not. *)
Theorem C7_sources_section_appended :
  forall (MODEL_CLIENTS : registry)
         (react_graph_ainvoke :
            list lc_message -> pystr -> Configuration.t -> result react_result)
         (uuid4 : pystr) (request : ReactAgentRequest.t)
         (m : ReactMessage.t) (ms : list ReactMessage.t),
    let messages := m :: ms in
    let thread_id := or_uuid uuid4 (ReactAgentRequest.thread_id request) in
    let reply :=
      ReactMessage.content (last messages m)
      ++ spec_sources_section (spec_search_entries messages) in
    spec_search_entries messages <> [] ->
    (forall msgs tid configuration,
        react_graph_ainvoke msgs tid configuration = Ok (Some messages)) ->
    react_response_content (Some messages) = reply
    /\ snd (react_agent_search MODEL_CLIENTS react_graph_ainvoke uuid4
              request)
       = Return (JSONResponse (ChatResponse.mk (assistant reply) thread_id))
    /\ serve (react_agent_search MODEL_CLIENTS react_graph_ainvoke uuid4
                request)
       = (if encodable reply && encodable thread_id
          then Http200 (Some (JSONResponse
                 (ChatResponse.mk (assistant reply) thread_id)))
          else Http500)
    /\ (exists body,
           events (trace (event_generator react_graph_ainvoke uuid4 request))
           = body ++ [result_event reply thread_id]
           /\ Forall (progress_event thread_id) body)
    /\ (forall title,
           List.length (spec_title title) <= 60
           /\ (60 < List.length (strip title) ->
               spec_title title = firstn 57 (strip title) ++ py "..."
               /\ List.length (spec_title title) = 60))
    /\ (forall (earlier : list agent_message) (content : pystr)
               (tool_calls : list ToolCall.t),
           agent_response_content
             (Some (earlier ++ [MessageToolCalls content tool_calls]))
           = content
           /\ agent_response_content
                (Some (earlier ++ [MessageObject content]))
              = content).
Proof.
  intros R ainvoke uuid request m ms messages tid reply Hne Hret.
  pose proof (react_response_content_sources m ms Hne) as E.
  fold messages in E. fold reply in E.
  assert (S : snd (react_agent_search R ainvoke uuid request)
              = Return (JSONResponse
                  (ChatResponse.mk (assistant reply) tid))).
  { unfold react_agent_search. rewrite Hret. run_monad.
    fold tid. now rewrite E. }
  split; [exact E|]. split; [exact S|]. split; [|split; [|split]].
  - exact (serve_json _ _ _ S).
  - destruct (event_generator_ok ainvoke uuid request (Some messages)
                (Hret _ _ _)) as (body & Hev & Hb & _).
    exists body. fold tid in Hev, Hb. rewrite E in Hev. now split.
  - apply spec_title_length.
  - intros earlier content tool_calls. unfold agent_response_content.
    split.
    + destruct (earlier ++ [MessageToolCalls content tool_calls]) as [|x l]
        eqn:L; [now destruct earlier|].
      rewrite <- L. now rewrite last_last.
    + destruct (earlier ++ [MessageObject content]) as [|x l]
        eqn:L; [now destruct earlier|].
      rewrite <- L. now rewrite last_last.
Qed.

Lemma C7_sources_section_appended_witness :
  react_response_content (Some cited_result)
  = py "Answer" ++ [LF; LF] ++ py "**Sources:**" ++ [LF]
    ++ py "[First](https://a.example)" ++ [LF]
    ++ py "[Second](https://b.example)".
Proof.
  refine (proj1 (C7_sources_section_appended sample_registry
                   (react_says cited_result) (py "u-1") sample_search
                   (ReactMessage.mk []
                      [search_call "https://a.example" "First";
                       search_call "https://b.example" "Second"])
                   [plain_message "Answer"] _ (fun _ _ _ => eq_refl))).
  vm_compute. discriminate.
Defined.

(** C7 as stated fails: the result of [agt_graph] in a chat through the
    agent holds a message with two search records, each with a url and a
    title, and the reply is the last content with no Sources section; the
    same records in a result of the ReAct graph give the section. *)
Lemma C7_counterexample :
  chat sample_registry
    (fun _ _ =>
       Ok (Some [MessageToolCalls []
                   [search_call "https://a.example" "First";
                    search_call "https://b.example" "Second"];
                 MessageObject (py "Answer")]))
    (py "u-1") 0 (sample_chat "gpt-4o-mini" true false)
  = ([AgtInvoke
        (VaaniState.mk [HumanMessage (py "Hi")] None false false None
           (py "gpt-4o-mini") 0%Z None) (py "t-1")],
     Return (JSONResponse
       (ChatResponse.mk (assistant (py "Answer")) (py "t-1"))))
  /\ react_response_content (Some cited_result) <> py "Answer".
Proof. split; [reflexivity | vm_compute; discriminate]. Qed.

(** ** The chunks of the word buffer, as groups of words *)

Lemma spell_snoc (pre : list pystr) (w : pystr) :
  spell (pre ++ [w]) = spell pre ++ w ++ [SP].
Proof.
  unfold spell. rewrite map_app, concat_app. cbn [map List.concat].
  now rewrite app_nil_r.
Qed.

(** The loop, started with the words [pre] in its buffer, cuts what follows
    into flush groups and keeps fewer than three words. *)
Lemma flush_groups_from (words : list pystr) :
  forall pre,
    List.length pre < 3 ->
    Forall (fun w => has_terminal_char w = false) pre ->
    exists groups rest,
      pre ++ words = List.concat groups ++ rest
      /\ flushed words (spell pre) (List.length pre) = map spell groups
      /\ Forall flush_group groups
      /\ remainder words (spell pre) (List.length pre)
         = (spell rest, List.length rest)
      /\ List.length rest < 3
      /\ Forall (fun w => has_terminal_char w = false) rest.
Proof.
  induction words as [|w ws IH]; intros pre Hlen Hpre.
  - exists [], pre. rewrite app_nil_r. repeat split; auto.
  - cbn [flushed remainder].
    destruct ((3 <=? List.length pre + 1) || has_terminal_char w) eqn:C.
    + destruct (IH [] (Nat.lt_0_succ 2) (Forall_nil _))
        as (groups & rest & E & F & G & Rm & L & N).
      exists ((pre ++ [w]) :: groups), rest.
      cbn [app] in E. cbn [List.concat map].
      rewrite <- app_assoc, <- E, spell_snoc.
      change (spell []) with (@nil char) in F, Rm. cbn [List.length] in F, Rm.
      rewrite F, Rm. repeat split; auto.
      * now rewrite <- app_assoc.
      * constructor; [|exact G]. repeat split.
        -- now destruct pre.
        -- rewrite length_app. cbn [List.length]. lia.
        -- now rewrite removelast_last.
        -- rewrite last_last, length_app. cbn [List.length].
           apply orb_true_iff in C. destruct C as [C|C]; [left | now right].
           apply Nat.leb_le in C. lia.
    + apply orb_false_iff in C. destruct C as [C T].
      apply Nat.leb_gt in C.
      assert (Hlen' : List.length (pre ++ [w]) < 3).
      { rewrite length_app. cbn [List.length]. lia. }
      assert (Hpre' : Forall (fun w => has_terminal_char w = false)
                        (pre ++ [w])).
      { apply Forall_app. split; [exact Hpre | now constructor]. }
      destruct (IH (pre ++ [w]) Hlen' Hpre')
        as (groups & rest & E & F & G & Rm & L & N).
      exists groups, rest.
      rewrite <- app_assoc in E. cbn [app] in E.
      rewrite spell_snoc, length_app in F, Rm. cbn [List.length] in F, Rm.
      repeat split; auto.
Qed.

Lemma chunks_text_progress (polls : nat) :
  forall step_index, chunks_text (progress_statuses polls step_index) = [].
Proof.
  induction polls as [|n IH]; intros i; [reflexivity|].
  cbn [progress_statuses chunks_text]. rewrite chunk_payload_status.
  apply IH.
Qed.

(** X1.  The word-buffer loop cuts the words of a text into consecutive
    groups and yields one chunk for each: a group has one to three words,
    only its last word may hold one of [. ! ? \n], and it has three words
    unless its last word holds one.  The loop ends with fewer than three
    words, none with such a character, in its buffer. *)
Theorem X1_chunks_are_word_groups :
  forall (thread_id text : pystr),
  exists groups rest,
    split SP text = List.concat groups ++ rest
    /\ events (trace (@chunk_loop unit thread_id (split SP text) [] 0))
       = map (fun c => chunk_event c thread_id) (map spell groups)
    /\ Forall flush_group groups
    /\ snd (@chunk_loop unit thread_id (split SP text) [] 0)
       = Value (spell rest, List.length rest)
    /\ List.length rest < 3
    /\ Forall (fun w => has_terminal_char w = false) rest.
Proof.
  intros tid text.
  destruct (flush_groups_from (split SP text) [] (Nat.lt_0_succ 2)
              (Forall_nil _)) as (groups & rest & E & F & G & Rm & L & N).
  exists groups, rest. cbn [app] in E.
  change (spell []) with (@nil char) in F, Rm. cbn [List.length] in F, Rm.
  rewrite chunk_loop_run. run_monad. rewrite events_yields, F, Rm.
  repeat split; auto.
Qed.

(** X2.  A streaming chat through the agent, for a registered model whose
    client is built, when the agent returns a result: the stream is the two
    opening statuses, the progress statuses, one chunk for each flush group
    of the reply, and the result event with the whole reply.  The chunks
    spell the reply up to its last words: fewer than three words, with the
    closing space, are never sent as a chunk. *)
Theorem X2_streaming_agent_chat_events :
  forall (MODEL_CLIENTS : registry)
         (agt_graph_invoke : VaaniState.t -> pystr -> result agt_result)
         (agent_polls : nat) (messages : list lc_message)
         (model thread_id : pystr) (deep_research : bool)
         (file_url : option pystr) (client : Client.t) (result : agt_result),
    dict_get model MODEL_CLIENTS = Some (Ok client) ->
    agt_graph_invoke (agent_input messages file_url deep_research model)
      thread_id = Ok result ->
    let reply := agent_response_content result in
    let evs :=
      events (trace (stream_chat_response MODEL_CLIENTS agt_graph_invoke
                       agent_polls messages model thread_id true
                       deep_research file_url)) in
    exists groups rest,
      split SP reply = List.concat groups ++ rest
      /\ Forall flush_group groups
      /\ List.length rest < 3
      /\ evs = [status_event (py "Processing...");
                status_event (py "Running agent...")]
               ++ progress_statuses agent_polls 0
               ++ map (fun c => chunk_event c thread_id) (map spell groups)
               ++ [result_event reply thread_id]
      /\ chunks_text evs ++ spell rest = reply ++ [SP].
Proof.
  intros R agt polls messages model tid dr fu client result Hget Hagt reply
    evs.
  destruct (flush_groups_from (split SP reply) [] (Nat.lt_0_succ 2)
              (Forall_nil _)) as (groups & rest & E & F & G & Rm & L & N).
  exists groups, rest. cbn [app] in E.
  change (spell []) with (@nil char) in F, Rm. cbn [List.length] in F, Rm.
  assert (Hev : evs = [status_event (py "Processing...");
                       status_event (py "Running agent...")]
                      ++ progress_statuses polls 0
                      ++ map (fun c => chunk_event c tid) (map spell groups)
                      ++ [result_event reply tid]).
  { unfold evs, stream_chat_response, construct.
    rewrite (dict_get_mem _ _ _ Hget). cbn [negb]. run_monad.
    rewrite Hget. run_monad. rewrite progress_loop_run, Hagt. run_monad.
    fold reply. rewrite chunk_loop_run. run_monad. run_events.
    rewrite F. reflexivity. }
  repeat split; auto.
  rewrite Hev. run_events. rewrite chunks_text_progress. cbn [app].
  rewrite app_nil_r.
  pose proof (flushed_remainder (split SP reply) [] 0) as FR.
  rewrite F, Rm, concat_split_sep in FR. exact FR.
Qed.

Lemma X2_streaming_agent_chat_events_witness :
  exists groups rest,
    split SP (py "Good morning. How are you") = List.concat groups ++ rest
    /\ Forall flush_group groups
    /\ List.length rest < 3
    /\ events (trace (stream_chat_response sample_registry
                        (agent_says (py "Good morning. How are you")) 1
                        [HumanMessage (py "Hi")] (py "gpt-4o-mini")
                        (py "t-1") true false None))
       = [status_event (py "Processing...");
          status_event (py "Running agent...")]
         ++ progress_statuses 1 0
         ++ map (fun c => chunk_event c (py "t-1")) (map spell groups)
         ++ [result_event (py "Good morning. How are you") (py "t-1")]
    /\ chunks_text
         (events (trace (stream_chat_response sample_registry
                           (agent_says (py "Good morning. How are you")) 1
                           [HumanMessage (py "Hi")] (py "gpt-4o-mini")
                           (py "t-1") true false None)))
       ++ spell rest
       = py "Good morning. How are you" ++ [SP].
Proof.
  exact (X2_streaming_agent_chat_events sample_registry
           (agent_says (py "Good morning. How are you")) 1
           [HumanMessage (py "Hi")] (py "gpt-4o-mini") (py "t-1") false None
           streaming_client
           (Some [MessageObject (py "Good morning. How are you")])
           eq_refl eq_refl).
Defined.

(** ** The rotation of the progress labels *)

Lemma progress_statuses_nth (polls : nat) :
  forall step_index i,
    step_index < 4 -> i < polls ->
    nth_error (progress_statuses polls step_index) i
    = Some (status_event
              (nth ((step_index + i) mod 4) progress_steps [] ++ py "...")).
Proof.
  induction polls as [|n IH]; intros s i Hs Hi; [lia|].
  cbn [progress_statuses].
  change (List.length progress_steps) with 4.
  destruct i as [|i]; cbn [nth_error].
  - now rewrite Nat.add_0_r, Nat.mod_small.
  - rewrite IH; [|apply Nat.mod_upper_bound; lia | lia].
    rewrite Nat.Div0.add_mod_idemp_l.
    now replace (s + 1 + i) with (s + S i) by lia.
Qed.

Lemma progress_statuses_length (polls : nat) :
  forall step_index,
    List.length (progress_statuses polls step_index) = polls.
Proof.
  induction polls as [|n IH]; intros s; [reflexivity|].
  cbn [progress_statuses List.length]. now rewrite IH.
Qed.

(** X3.  While the agent task runs, the streaming chat yields one status a
    poll, and the labels rotate: the status of poll [i] is the label
    [i mod 4] of Thinking, Processing, Analyzing, Formulating response,
    followed by three dots. *)
Theorem X3_progress_labels_rotate :
  forall (polls i : nat),
    i < polls ->
    List.length (events (trace (@progress_loop unit polls 0))) = polls
    /\ nth_error (events (trace (@progress_loop unit polls 0))) i
       = Some (status_event (nth (i mod 4) progress_steps [] ++ py "...")).
Proof.
  intros polls i Hi. rewrite progress_loop_run. run_monad.
  rewrite events_yields. split.
  - apply progress_statuses_length.
  - now rewrite progress_statuses_nth by lia.
Qed.

Lemma X3_progress_labels_rotate_witness :
  nth_error (events (trace (@progress_loop unit 6 0))) 5
  = Some (status_event (py "Processing...")).
Proof.
  exact (proj2 (X3_progress_labels_rotate 6 5 (le_n 6))).
Defined.

(** ** The direct streaming chat *)

Lemma concat_filter_truthy (l : list pystr) :
  List.concat (filter truthy l) = List.concat l.
Proof.
  induction l as [|x l IH]; [reflexivity|].
  cbn [filter List.concat]. destruct x as [|c x]; cbn [truthy].
  - exact IH.
  - cbn [List.concat]. now rewrite IH.
Qed.

(** X4.  A direct streaming chat for a registered model whose client is
    built and has [astream]: after the first status, every non-empty piece of
    the provider's stream is relayed as one chunk, in order, and the chunks
    spell the concatenation of the pieces.  The stream then ends with a done
    event, or, when the provider's stream broke off with an exception, with
    a result event that names the model and holds the exception's text; the
    pieces that arrived before are kept. *)
Theorem X4_direct_stream_relays_pieces :
  forall (MODEL_CLIENTS : registry)
         (agt_graph_invoke : VaaniState.t -> pystr -> result agt_result)
         (agent_polls : nat) (messages : list lc_message)
         (model thread_id : pystr) (deep_research : bool)
         (file_url : option pystr) (client : Client.t)
         (astream : list lc_message -> list stream_chunk * option Exn.t)
         (stream : list stream_chunk) (failure : option Exn.t),
    dict_get model MODEL_CLIENTS = Some (Ok client) ->
    Client.astream client = Some astream ->
    astream messages = (stream, failure) ->
    let evs :=
      events (trace (stream_chat_response MODEL_CLIENTS agt_graph_invoke
                       agent_polls messages model thread_id false
                       deep_research file_url)) in
    evs = status_event (py "Processing...")
          :: map (fun c => chunk_event c thread_id) (relayed stream)
          ++ [match failure with
              | None => done_event thread_id
              | Some e =>
                  result_event (py "I encountered an error with the "
                                ++ model ++ py " model: " ++ Exn.str e)
                    thread_id
              end]
    /\ chunks_text evs = List.concat (map chunk_content_of stream).
Proof.
  intros R agt polls messages model tid dr fu client astream stream failure
    Hget Hast Hstream evs.
  assert (Hev : evs = status_event (py "Processing...")
                      :: map (fun c => chunk_event c tid) (relayed stream)
                      ++ [match failure with
                          | None => done_event tid
                          | Some e =>
                              result_event
                                (py "I encountered an error with the "
                                 ++ model ++ py " model: " ++ Exn.str e) tid
                          end]).
  { unfold evs, stream_chat_response, construct.
    rewrite (dict_get_mem _ _ _ Hget). cbn [negb]. run_monad.
    rewrite Hget. run_monad. rewrite Hast. run_monad. rewrite Hstream.
    rewrite relay_loop_run. destruct failure as [e|]; run_monad; run_events;
      rewrite ?app_nil_r; reflexivity. }
  split; [exact Hev|]. rewrite Hev. run_events.
  destruct failure; run_events; rewrite app_nil_r; apply concat_filter_truthy.
Qed.

Lemma X4_direct_stream_relays_pieces_witness :
  chunks_text
    (events (trace (stream_chat_response sample_registry
                      (agent_says (py "Hi")) 0 [HumanMessage (py "Hi")]
                      (py "gpt-4o-mini") (py "t-1") false false None)))
  = py "Hi there".
Proof.
  exact (proj2 (X4_direct_stream_relays_pieces sample_registry
                  (agent_says (py "Hi")) 0 [HumanMessage (py "Hi")]
                  (py "gpt-4o-mini") (py "t-1") false None streaming_client
                  (fun _ => ([ChunkObject (Some (py "Hi")) None;
                              ChunkObject (Some (py " there")) None], None))
                  [ChunkObject (Some (py "Hi")) None;
                   ChunkObject (Some (py " there")) None] None
                  eq_refl eq_refl eq_refl)).
Defined.

(** X5.  The streaming chat ends its stream with exactly one result or done
    event, its last event, whenever the request goes through the agent, or
    every client of the registry has [astream]: whatever the registry holds
    for the name, and whether the client can be built, the agent raises or
    the provider's stream breaks off. *)
Theorem X5_streaming_chat_is_terminated :
  forall (MODEL_CLIENTS : registry)
         (agt_graph_invoke : VaaniState.t -> pystr -> result agt_result)
         (agent_polls : nat) (messages : list lc_message)
         (model thread_id : pystr) (use_agent deep_research : bool)
         (file_url : option pystr),
    (use_agent = true
     \/ forall name client,
          dict_get name MODEL_CLIENTS = Some (Ok client) ->
          Client.astream client <> None) ->
    well_terminated
      (events (trace (stream_chat_response MODEL_CLIENTS agt_graph_invoke
                        agent_polls messages model thread_id use_agent
                        deep_research file_url))) = true.
Proof.
  intros R agt polls messages model tid ua dr fu H.
  destruct (stream_chat_response_terminated R agt polls messages model tid ua
              dr fu) as [T|[Hua (name & client & Hget & Hnone)]];
    [exact T|].
  destruct H as [H|H]; [congruence|]. now destruct (H name client Hget).
Qed.

Lemma X5_streaming_chat_is_terminated_witness :
  well_terminated
    (events (trace (stream_chat_response sample_registry
                      (agent_raises overloaded) 3 [HumanMessage (py "Hi")]
                      (py "gpt-4o") (py "t-1") true false None))) = true.
Proof.
  exact (X5_streaming_chat_is_terminated sample_registry
           (agent_raises overloaded) 3 [HumanMessage (py "Hi")] (py "gpt-4o")
           (py "t-1") true false None (or_introl eq_refl)).
Defined.

Lemma react_calls_app (t1 t2 : list action) :
  react_calls (t1 ++ t2) = react_calls t1 ++ react_calls t2.
Proof.
  induction t1 as [|a t1 IH]; simpl; [reflexivity|].
  destruct a; simpl; now rewrite IH.
Qed.

Lemma react_calls_yields (evs : list json) : react_calls (map Yield evs) = [].
Proof. induction evs as [|e evs IH]; simpl; [reflexivity | exact IH]. Qed.

(** X6.  The streaming search, whatever the graph does, calls it once, with
    the client's messages as they came, the request's thread and the
    streaming configuration; its stream opens with the statuses
    "Starting research..." and "Researching...", goes on with chunk events
    only, and ends with exactly one result event, its last event: no done
    event and no other result event is in it. *)
Theorem X6_streaming_search_run :
  forall (react_graph_ainvoke :
            list lc_message -> pystr -> Configuration.t -> result react_result)
         (uuid4 : pystr) (request : ReactAgentRequest.t),
    let thread_id := or_uuid uuid4 (ReactAgentRequest.thread_id request) in
    let run := event_generator react_graph_ainvoke uuid4 request in
    react_calls (trace run)
    = [(react_langchain_messages (ReactAgentRequest.messages request),
        thread_id, react_streaming_configuration request)]
    /\ exists chunks content,
         events (trace run)
         = status_event (py "Starting research...")
           :: status_event (py "Researching...")
           :: map (fun c => chunk_event c thread_id) chunks
           ++ [result_event content thread_id].
Proof.
  intros ainvoke uuid request tid run. unfold run. split.
  - unfold event_generator. fold tid. run_monad.
    destruct (ainvoke _ _ _) as [result|e]; run_monad.
    + rewrite chunk_loop_run. run_monad.
      destruct (truthy (fst (remainder _ _ _))); run_monad;
        cbn [react_calls app]; now rewrite react_calls_app, react_calls_yields.
    + reflexivity.
  - unfold event_generator. fold tid. run_monad.
    destruct (ainvoke _ _ _) as [result|e]; run_monad.
    + rewrite chunk_loop_run. run_monad.
      destruct (truthy (fst (remainder _ _ _))); run_monad; run_events.
      * exists (flushed (split SP (react_response_content result)) [] 0
                ++ [fst (remainder
                           (split SP (react_response_content result)) [] 0)]),
               (react_response_content result).
        rewrite map_app, <- app_assoc. reflexivity.
      * exists (flushed (split SP (react_response_content result)) [] 0),
               (react_response_content result).
        rewrite ?app_nil_r. reflexivity.
    + exists [], (py "I encountered an error: " ++ Exn.str e).
      cbn [events map app]. unfold tid. now rewrite or_uuid_idem.
Qed.

(** ** Replies of the chat and of the search *)

(** X7.  Whatever the registry and the collaborators do, no exception
    leaves [chat].  A streaming request is answered 200 with the stream of
    [stream_chat_response] for the converted conversation.  Every other
    request returns one message of role "assistant" with the request's
    thread identifier, or a fresh one when the request has none; it is
    answered 200 when its content and the thread identifier can be encoded,
    and 500 when one of them holds a surrogate. *)
Theorem X7_chat_reply :
  forall (MODEL_CLIENTS : registry)
         (agt_graph_invoke : VaaniState.t -> pystr -> result agt_result)
         (uuid4 : pystr) (agent_polls : nat) (request : ChatRequest.t),
    let thread_id := or_uuid uuid4 (ChatRequest.thread_id request) in
    let run := chat MODEL_CLIENTS agt_graph_invoke uuid4 agent_polls request in
    if ChatRequest.stream request then
      serve run
      = Http200 (Some (StreamingResponse
          (stream_chat_response MODEL_CLIENTS agt_graph_invoke agent_polls
             (chat_langchain_messages (ChatRequest.messages request))
             (ChatRequest.model request) thread_id
             (ChatRequest.use_agent request)
             (ChatRequest.deep_research request)
             (ChatRequest.file_url request))))
    else
      exists content,
        snd run
        = Return (JSONResponse
            (ChatResponse.mk (Message.mk (py "assistant") content)
               thread_id))
        /\ serve run
           = if encodable content && encodable thread_id
             then Http200 (Some (JSONResponse
                    (ChatResponse.mk (Message.mk (py "assistant") content)
                       thread_id)))
             else Http500.
Proof.
  intros R agt uuid polls request tid run. subst run.
  destruct (ChatRequest.stream request) eqn:Hs.
  - unfold chat, serve. rewrite Hs. reflexivity.
  - destruct (chat_returns R agt uuid polls request Hs) as [content E].
    exists content. split; [exact E|]. now apply serve_json.
Qed.

(** X8.  A chat through the agent without streaming never looks at the
    registry: it builds no client and calls the agent once.  The state it
    hands over holds the converted conversation, the request's file and
    deep-research flag, the agent name "web_search_agent" when that flag is
    set, and the model name as the client gave it, registered or not.  It
    returns the agent's reply text, or the agent error text when the call
    raised. *)
Theorem X8_agent_chat_keeps_model_name :
  forall (MODEL_CLIENTS : registry)
         (agt_graph_invoke : VaaniState.t -> pystr -> result agt_result)
         (uuid4 : pystr) (agent_polls : nat) (request : ChatRequest.t),
    ChatRequest.use_agent request = true ->
    ChatRequest.stream request = false ->
    let thread_id := or_uuid uuid4 (ChatRequest.thread_id request) in
    let input_state :=
      VaaniState.mk
        (chat_langchain_messages (ChatRequest.messages request))
        (ChatRequest.file_url request) false
        (ChatRequest.deep_research request)
        (if ChatRequest.deep_research request
         then Some (py "web_search_agent") else None)
        (ChatRequest.model request) 0%Z None in
    chat MODEL_CLIENTS agt_graph_invoke uuid4 agent_polls request
    = ([AgtInvoke input_state thread_id],
       Return (JSONResponse (ChatResponse.mk
         (assistant
            match agt_graph_invoke input_state thread_id with
            | Ok result => agent_response_content result
            | Exc e =>
                py "I encountered an error with the AI agent: " ++ Exn.str e
            end) thread_id))).
Proof.
  intros R agt uuid polls request Hua Hs tid input.
  unfold chat. rewrite Hua, Hs. fold tid. unfold agent_input. fold input.
  run_monad. destruct (agt input tid); reflexivity.
Qed.

Lemma X8_agent_chat_keeps_model_name_witness :
  chat [] (agent_says (py "Hi there")) (py "u-1") 0
    (sample_chat "no-such-model" true false)
  = ([AgtInvoke
        (VaaniState.mk [HumanMessage (py "Hi")] None false false None
           (py "no-such-model") 0%Z None) (py "t-1")],
     Return (JSONResponse
       (ChatResponse.mk (assistant (py "Hi there")) (py "t-1")))).
Proof.
  exact (X8_agent_chat_keeps_model_name [] (agent_says (py "Hi there"))
           (py "u-1") 0 (sample_chat "no-such-model" true false)
           eq_refl eq_refl).
Defined.

Lemma in_keys_get {V : Type} (name : pystr) (d : list (pystr * V)) :
  In name (keys d) -> exists v, dict_get name d = Some v.
Proof.
  induction d as [|[k v] d IH]; [intros []|].
  cbn [keys map fst In dict_get]. intros H.
  destruct (str_eqb name k) eqn:E; [eauto|].
  destruct H as [H|H]; [|exact (IH H)].
  subst k. now rewrite str_eqb_refl in E.
Qed.

(** X9.  Every name that [get_available_models] lists is served by its own
    client: a direct chat for it without streaming builds the client stored
    under that name and no other, and answers with that client's reply as it
    is, or with the model error text, which names the model, when building
    or invoking the client raised. *)
Theorem X9_listed_model_is_served_by_its_client :
  forall (MODEL_CLIENTS : registry)
         (agt_graph_invoke : VaaniState.t -> pystr -> result agt_result)
         (uuid4 : pystr) (agent_polls : nat) (request : ChatRequest.t),
    In (ChatRequest.model request) (get_available_models MODEL_CLIENTS) ->
    ChatRequest.use_agent request = false ->
    ChatRequest.stream request = false ->
    let model := ChatRequest.model request in
    let thread_id := or_uuid uuid4 (ChatRequest.thread_id request) in
    let messages := chat_langchain_messages (ChatRequest.messages request) in
    let failed (e : Exn.t) :=
      JSONResponse (ChatResponse.mk
        (assistant (py "I encountered an error with the " ++ model
                    ++ py " model: " ++ Exn.str e)) thread_id) in
    exists factory,
      dict_get model MODEL_CLIENTS = Some factory
      /\ chat MODEL_CLIENTS agt_graph_invoke uuid4 agent_polls request
         = match factory with
           | Exc e => ([Construct model], Return (failed e))
           | Ok client =>
               ([Construct model; Invoke model messages],
                Return
                  match Client.invoke client messages with
                  | Ok text =>
                      JSONResponse (ChatResponse.mk (assistant text)
                                      thread_id)
                  | Exc e => failed e
                  end)
           end.
Proof.
  intros R agt uuid polls request Hin Hua Hs model tid messages failed.
  destruct (in_keys_get _ _ Hin) as [factory Hget].
  exists factory. split; [exact Hget|].
  subst model tid messages failed.
  unfold chat. rewrite Hua, Hs.
  rewrite (dict_get_mem _ _ _ Hget). cbn [negb]. run_monad.
  unfold construct. rewrite Hget. run_monad.
  destruct factory as [client|e]; run_monad; [|reflexivity].
  destruct (Client.invoke client _); run_monad; reflexivity.
Qed.

Lemma X9_listed_model_is_served_by_its_client_witness :
  exists factory,
    dict_get (py "gpt-4o") sample_registry = Some factory
    /\ chat sample_registry (agent_says (py "Hi")) (py "u-1") 0
         (sample_chat "gpt-4o" false false)
       = match factory with
         | Exc e =>
             ([Construct (py "gpt-4o")],
              Return (JSONResponse (ChatResponse.mk
                (assistant (py "I encountered an error with the "
                            ++ py "gpt-4o" ++ py " model: " ++ Exn.str e))
                (py "t-1"))))
         | Ok client =>
             ([Construct (py "gpt-4o");
               Invoke (py "gpt-4o") [HumanMessage (py "Hi")]],
              Return
                match Client.invoke client [HumanMessage (py "Hi")] with
                | Ok text =>
                    JSONResponse (ChatResponse.mk (assistant text)
                                    (py "t-1"))
                | Exc e =>
                    JSONResponse (ChatResponse.mk
                      (assistant (py "I encountered an error with the "
                                  ++ py "gpt-4o" ++ py " model: "
                                  ++ Exn.str e)) (py "t-1"))
                end)
         end.
Proof.
  exact (X9_listed_model_is_served_by_its_client sample_registry
           (agent_says (py "Hi")) (py "u-1") 0
           (sample_chat "gpt-4o" false false)
           (or_intror (or_introl eq_refl)) eq_refl eq_refl).
Defined.

(** X10.  The search endpoint, whatever the graph does, calls it once, with
    the client's messages as they came, the request's thread and the
    configuration built for the request, and returns one message of role
    "assistant" that carries the request's thread identifier, or a fresh one
    when the request has none: no exception leaves it.  The message is
    answered 200 when its content and the thread identifier can be encoded,
    and 500 when one of them holds a surrogate. *)
Theorem X10_search_reply :
  forall (MODEL_CLIENTS : registry)
         (react_graph_ainvoke :
            list lc_message -> pystr -> Configuration.t -> result react_result)
         (uuid4 : pystr) (request : ReactAgentRequest.t),
    let thread_id := or_uuid uuid4 (ReactAgentRequest.thread_id request) in
    let run :=
      react_agent_search MODEL_CLIENTS react_graph_ainvoke uuid4 request in
    react_calls (trace run)
    = [(react_langchain_messages (ReactAgentRequest.messages request),
        thread_id, react_configuration MODEL_CLIENTS request)]
    /\ exists content,
         snd run
         = Return (JSONResponse
             (ChatResponse.mk (Message.mk (py "assistant") content)
                thread_id))
         /\ serve run
            = if encodable content && encodable thread_id
              then Http200 (Some (JSONResponse
                     (ChatResponse.mk (Message.mk (py "assistant") content)
                        thread_id)))
              else Http500.
Proof.
  intros R ainvoke uuid request tid run.
  assert (E : exists content,
             snd run = Return (JSONResponse
                         (ChatResponse.mk (assistant content) tid))).
  { unfold run, react_agent_search. fold tid. run_monad.
    destruct (ainvoke _ _ _) as [result|e]; run_monad; [eauto|].
    destruct (Exn.cls e); run_monad; eauto. }
  split.
  - unfold run, react_agent_search. fold tid. run_monad.
    destruct (ainvoke _ _ _) as [result|e]; run_monad; [reflexivity|].
    destruct (Exn.cls e); reflexivity.
  - destruct E as [content E]. exists content.
    split; [exact E | now apply serve_json].
Qed.

(** ** The conversion of the client's messages *)

Lemma lstrip_head (s : pystr) :
  lstrip s = []
  \/ exists x r, lstrip s = x :: r /\ is_space x = false.
Proof.
  induction s as [|c s IH]; [now left|]. cbn [lstrip].
  destruct (is_space c) eqn:E; [exact IH | right; eauto].
Qed.

Lemma lstrip_keeps (x : char) (r : pystr) :
  is_space x = false -> lstrip (x :: r) = x :: r.
Proof. intros E. cbn [lstrip]. now rewrite E. Qed.

Lemma lstrip_idem (s : pystr) : lstrip (lstrip s) = lstrip s.
Proof.
  destruct (lstrip_head s) as [E|(x & r & E & Hx)]; rewrite E;
    [reflexivity | now apply lstrip_keeps].
Qed.

Lemma lstrip_suffix (s : pystr) : exists pre, s = pre ++ lstrip s.
Proof.
  induction s as [|c s [pre IH]]; [now exists []|]. cbn [lstrip].
  destruct (is_space c); [|now exists []].
  exists (c :: pre). cbn [app]. now rewrite <- IH.
Qed.

Lemma lstrip_nil_blank (s : pystr) :
  lstrip s = [] -> forallb is_space s = true.
Proof.
  induction s as [|c s IH]; [reflexivity|]. cbn [lstrip forallb].
  destruct (is_space c); [exact IH | discriminate].
Qed.

Lemma forallb_rev {A : Type} (f : A -> bool) (l : list A) :
  forallb f (rev l) = true -> forallb f l = true.
Proof.
  rewrite !forallb_forall. intros H x Hx. apply H. now apply in_rev in Hx.
Qed.

(** What [strip] gives has no blank at either end. *)
Lemma strip_stripped (s : pystr) : stripped (strip s).
Proof.
  unfold stripped, strip, rstrip. set (t := lstrip s). split.
  - destruct (lstrip_suffix (rev t)) as [pre E].
    apply (f_equal (@rev char)) in E. rewrite rev_involutive, rev_app_distr in E.
    destruct (rev (lstrip (rev t))) as [|y q] eqn:Q; [reflexivity|].
    apply lstrip_keeps.
    destruct (lstrip_head s) as [H|(x & r & H & Hx)]; fold t in H;
      rewrite H in E; cbn [app] in E; [discriminate|].
    now injection E as -> _.
  - now rewrite rev_involutive, lstrip_idem.
Qed.

(** [strip] gives the empty string on blanks only. *)
Lemma strip_nil_blank (s : pystr) :
  strip s = [] -> forallb is_space s = true.
Proof.
  unfold strip, rstrip. intros H.
  apply (f_equal (@rev char)) in H. rewrite rev_involutive in H. cbn in H.
  apply lstrip_nil_blank, forallb_rev in H.
  destruct (lstrip_head s) as [E|(x & r & E & Hx)].
  - now apply lstrip_nil_blank.
  - rewrite E in H. cbn [forallb] in H. now rewrite Hx in H.
Qed.

Lemma chat_roles (messages : list Message.t) :
  forall acc,
    map is_human
      (fold_left (fun acc msg =>
         if str_eqb (Message.role msg) (py "user") then
           let content :=
             if truthy (Message.content msg) then strip (Message.content msg)
             else py "Hello" in
           acc ++ [HumanMessage content]
         else if str_eqb (Message.role msg) (py "assistant") then
           let content :=
             if truthy (Message.content msg) then strip (Message.content msg)
             else py "I'm an AI assistant." in
           acc ++ [AIMessage content]
         else acc) messages acc)
    = map is_human acc ++ map is_user (filter known_role messages).
Proof.
  induction messages as [|msg ms IH]; intros acc; cbn [fold_left filter map].
  - now rewrite app_nil_r.
  - rewrite IH.
    assert (K : known_role msg
                = str_eqb (Message.role msg) (py "user")
                  || str_eqb (Message.role msg) (py "assistant"))
      by reflexivity.
    assert (I : is_user msg = str_eqb (Message.role msg) (py "user"))
      by reflexivity.
    rewrite K.
    destruct (str_eqb (Message.role msg) (py "user")) eqn:U; cbn [orb].
    + cbn [map]. rewrite I, map_app, <- app_assoc. reflexivity.
    + destruct (str_eqb (Message.role msg) (py "assistant")).
      * cbn [map]. rewrite I, map_app, <- app_assoc. reflexivity.
      * reflexivity.
Qed.

Lemma chat_converted (messages : list Message.t) :
  forall acc,
    fold_left (fun acc msg =>
      if str_eqb (Message.role msg) (py "user") then
        let content :=
          if truthy (Message.content msg) then strip (Message.content msg)
          else py "Hello" in
        acc ++ [HumanMessage content]
      else if str_eqb (Message.role msg) (py "assistant") then
        let content :=
          if truthy (Message.content msg) then strip (Message.content msg)
          else py "I'm an AI assistant." in
        acc ++ [AIMessage content]
      else acc) messages acc
    = acc
      ++ map (fun msg =>
                if is_user msg then
                  HumanMessage
                    (if truthy (Message.content msg)
                     then strip (Message.content msg) else py "Hello")
                else
                  AIMessage
                    (if truthy (Message.content msg)
                     then strip (Message.content msg)
                     else py "I'm an AI assistant."))
           (filter known_role messages).
Proof.
  induction messages as [|msg ms IH]; intros acc; cbn [fold_left filter map].
  - now rewrite app_nil_r.
  - rewrite IH.
    assert (K : known_role msg
                = str_eqb (Message.role msg) (py "user")
                  || str_eqb (Message.role msg) (py "assistant"))
      by reflexivity.
    assert (I : is_user msg = str_eqb (Message.role msg) (py "user"))
      by reflexivity.
    rewrite K.
    destruct (str_eqb (Message.role msg) (py "user")) eqn:U; cbn [orb].
    + cbn [map]. rewrite I, <- app_assoc. reflexivity.
    + destruct (str_eqb (Message.role msg) (py "assistant")).
      * cbn [map]. rewrite I, <- app_assoc. reflexivity.
      * reflexivity.
Qed.

(** X11.  The conversation [chat] hands on is never empty.  Messages of a
    role other than "user" and "assistant" are dropped and the others keep
    their order: the message at each place is the human message, for a
    "user" message, or the AI message, for an "assistant" message, of the
    kept message at that place, with its content stripped, or the role's
    default when the content is empty.  When no message is kept, the
    conversation is the single human message "Hello". *)
Theorem X11_chat_conversation_roles :
  forall (messages : list Message.t),
    chat_langchain_messages messages <> []
    /\ (filter known_role messages = [] ->
        chat_langchain_messages messages = [HumanMessage (py "Hello")])
    /\ (filter known_role messages <> [] ->
        chat_langchain_messages messages
        = map (fun msg =>
                 if is_user msg then
                   HumanMessage
                     (if truthy (Message.content msg)
                      then strip (Message.content msg) else py "Hello")
                 else
                   AIMessage
                     (if truthy (Message.content msg)
                      then strip (Message.content msg)
                      else py "I'm an AI assistant."))
            (filter known_role messages)
        /\ map is_human (chat_langchain_messages messages)
           = map is_user (filter known_role messages)).
Proof.
  intros messages. pose proof (chat_roles messages []) as R.
  pose proof (chat_converted messages []) as C.
  cbn [map app] in R, C. unfold chat_langchain_messages.
  destruct (fold_left _ messages []) as [|m l] eqn:L; cbn [is_nil].
  - split; [discriminate|]. split; [reflexivity|].
    intros N. destruct (filter known_role messages); [congruence|].
    discriminate R.
  - split; [discriminate|]. split.
    + intros E. rewrite E in R. discriminate R.
    + intros _. split; [exact C | exact R].
Qed.

Lemma X11_chat_conversation_roles_witness :
  chat_langchain_messages
    [Message.mk (py "system") (py "Be brief");
     Message.mk (py "user") (py " Hi ");
     Message.mk (py "assistant") []]
  = [HumanMessage (py "Hi"); AIMessage (py "I'm an AI assistant.")].
Proof.
  refine (proj1 (proj2 (proj2 (X11_chat_conversation_roles
                                 [Message.mk (py "system") (py "Be brief");
                                  Message.mk (py "user") (py " Hi ");
                                  Message.mk (py "assistant") []])) _)).
  vm_compute. discriminate.
Defined.

Lemma chat_contents (all messages : list Message.t)
    (P : lc_message -> Prop) :
  (forall msg c,
      In msg all -> known_role msg = true ->
      c = (if truthy (Message.content msg) then strip (Message.content msg)
           else py "Hello")
      \/ c = (if truthy (Message.content msg)
              then strip (Message.content msg)
              else py "I'm an AI assistant.") ->
      P (HumanMessage c) /\ P (AIMessage c)) ->
  (forall msg, In msg messages -> In msg all) ->
  forall acc,
    Forall P acc ->
    Forall P
      (fold_left (fun acc msg =>
         if str_eqb (Message.role msg) (py "user") then
           let content :=
             if truthy (Message.content msg) then strip (Message.content msg)
             else py "Hello" in
           acc ++ [HumanMessage content]
         else if str_eqb (Message.role msg) (py "assistant") then
           let content :=
             if truthy (Message.content msg) then strip (Message.content msg)
             else py "I'm an AI assistant." in
           acc ++ [AIMessage content]
         else acc) messages acc).
Proof.
  intros HP. induction messages as [|msg ms IH]; intros Hin acc Hacc;
    cbn [fold_left]; [exact Hacc|].
  assert (Hmsg : In msg all) by (apply Hin; now left).
  assert (Hms : forall x, In x ms -> In x all)
    by (intros x Hx; apply Hin; now right).
  assert (K : known_role msg
              = str_eqb (Message.role msg) (py "user")
                || str_eqb (Message.role msg) (py "assistant"))
    by reflexivity.
  destruct (str_eqb (Message.role msg) (py "user")) eqn:U.
  - apply IH; [exact Hms|]. apply Forall_app. split; [exact Hacc|].
    constructor; [|constructor].
    now apply (HP msg _ Hmsg K); left.
  - destruct (str_eqb (Message.role msg) (py "assistant")) eqn:A.
    + apply IH; [exact Hms|]. apply Forall_app. split; [exact Hacc|].
      constructor; [|constructor].
      now apply (HP msg _ Hmsg K); right.
    + now apply IH.
Qed.

(** X12.  Every message of the conversation [chat] hands on has content
    without a blank at either end, and its content is empty only when the
    client sent, under a kept role, a content that is not empty and made of
    blanks only. *)
Theorem X12_chat_contents_are_stripped :
  forall (messages : list Message.t) (m : lc_message),
    In m (chat_langchain_messages messages) ->
    stripped (lc_content m)
    /\ (lc_content m = [] ->
        exists msg,
          In msg messages /\ known_role msg = true
          /\ Message.content msg <> []
          /\ forallb is_space (Message.content msg) = true).
Proof.
  intros messages m Hin.
  set (P := fun m : lc_message =>
              stripped (lc_content m)
              /\ (lc_content m = [] ->
                  exists msg,
                    In msg messages /\ known_role msg = true
                    /\ Message.content msg <> []
                    /\ forallb is_space (Message.content msg) = true)).
  assert (HP : forall msg c,
             In msg messages -> known_role msg = true ->
             c = (if truthy (Message.content msg)
                  then strip (Message.content msg) else py "Hello")
             \/ c = (if truthy (Message.content msg)
                     then strip (Message.content msg)
                     else py "I'm an AI assistant.") ->
             P (HumanMessage c) /\ P (AIMessage c)).
  { intros msg c Hmsg Hk Hc.
    assert (Q : stripped c
                /\ (c = [] ->
                    Message.content msg <> []
                    /\ forallb is_space (Message.content msg) = true)).
    { destruct (truthy (Message.content msg)) eqn:T.
      - assert (c = strip (Message.content msg)) as -> by tauto.
        split; [apply strip_stripped|]. intros E. split.
        + intros N. now rewrite N in T.
        + now apply strip_nil_blank.
      - destruct Hc as [-> | ->]; (split; [now split | discriminate]). }
    destruct Q as [Q1 Q2]. unfold P. cbn [lc_content].
    split; (split; [exact Q1|]); intros E; exists msg; tauto. }
  pose proof (chat_contents messages messages P HP (fun _ H => H) []
                (Forall_nil _)) as F.
  unfold chat_langchain_messages in Hin.
  destruct (fold_left _ messages []) as [|x l]; cbn [is_nil] in Hin.
  - destruct Hin as [<-|[]]. cbn [lc_content].
    split; [now split | discriminate].
  - rewrite Forall_forall in F. exact (F m Hin).
Qed.

Lemma X12_chat_contents_are_stripped_witness :
  stripped (py "Hi there").
Proof.
  exact (proj1 (X12_chat_contents_are_stripped
                  [Message.mk (py "user") (py "  Hi there ")]
                  (HumanMessage (py "Hi there")) (or_introl eq_refl))).
Defined.

Lemma react_verbatim (messages : list Message.t) :
  forall acc,
    fold_left (fun acc msg =>
      if str_eqb (Message.role msg) (py "user") then
        acc ++ [HumanMessage (Message.content msg)]
      else if str_eqb (Message.role msg) (py "assistant") then
        acc ++ [AIMessage (Message.content msg)]
      else acc) messages acc
    = acc ++ map (fun msg =>
                    if is_user msg then HumanMessage (Message.content msg)
                    else AIMessage (Message.content msg))
               (filter known_role messages).
Proof.
  induction messages as [|msg ms IH]; intros acc; cbn [fold_left filter map].
  - now rewrite app_nil_r.
  - rewrite IH.
    assert (K : known_role msg
                = str_eqb (Message.role msg) (py "user")
                  || str_eqb (Message.role msg) (py "assistant"))
      by reflexivity.
    assert (I : is_user msg = str_eqb (Message.role msg) (py "user"))
      by reflexivity.
    rewrite K.
    destruct (str_eqb (Message.role msg) (py "user")) eqn:U; cbn [orb].
    + cbn [map]. rewrite I, <- app_assoc. reflexivity.
    + destruct (str_eqb (Message.role msg) (py "assistant")).
      * cbn [map]. rewrite I, <- app_assoc. reflexivity.
      * reflexivity.
Qed.

(** X13.  The two search endpoints hand the client's messages to the graph
    as they came: messages of a role other than "user" and "assistant" are
    dropped, the others keep their order and their content, character for
    character, an empty or blank content included, and an empty conversation
    stays empty. *)
Theorem X13_search_conversation_verbatim :
  forall (messages : list Message.t),
    map lc_content (react_langchain_messages messages)
    = map Message.content (filter known_role messages)
    /\ map is_human (react_langchain_messages messages)
       = map is_user (filter known_role messages).
Proof.
  intros messages. unfold react_langchain_messages.
  rewrite react_verbatim. cbn [app]. rewrite !map_map. split.
  - apply map_ext. intros msg. now destruct (is_user msg).
  - apply map_ext. intros msg. now destruct (is_user msg).
Qed.

(** ** The Sources section, on any list of sources *)

Lemma format_loop_nil (sources : list Item.t) :
  forall acc,
    is_nil
      (fold_left (fun acc source =>
         let title :=
           match Item.title source with Some t => t | None => py "Source" end
         in
         let url := match Item.url source with Some u => u | None => [] end in
         if truthy url then
           let title := strip title in
           let title :=
             if 60 <? List.length title then firstn 57 title ++ py "..."
             else title in
           acc ++ [py "[" ++ title ++ py "](" ++ url ++ py ")"]
         else acc) sources acc)
    = is_nil acc
      && forallb (fun source => negb (truthy_opt (Item.url source))) sources.
Proof.
  induction sources as [|[u t] sources IH]; intros acc;
    cbn [fold_left forallb].
  - now rewrite andb_true_r.
  - rewrite IH. cbn [Item.url Item.title].
    destruct u as [u|]; cbn [truthy_opt truthy negb andb]; [|reflexivity].
    destruct (truthy u); cbn [negb andb]; [|reflexivity].
    destruct acc; reflexivity.
Qed.

(** X14.  [format_source_urls] gives the empty string exactly when no source
    has a non-empty url, the empty list included; otherwise it gives the
    heading [\n\n**Sources:**\n] followed by the links. *)
Theorem X14_sources_section_needs_a_url :
  forall (sources : list Item.t),
    (format_source_urls sources = []
     <-> Forall (fun source => truthy_opt (Item.url source) = false) sources)
    /\ (format_source_urls sources <> [] ->
        exists links,
          format_source_urls sources
          = [LF; LF] ++ py "**Sources:**" ++ [LF] ++ links).
Proof.
  intros sources. unfold format_source_urls.
  destruct sources as [|s0 sources]; cbn [is_nil].
  - split; [split; [constructor | reflexivity] | congruence].
  - rewrite format_loop_nil. cbn [is_nil andb].
    destruct (forallb _ (s0 :: sources)) eqn:F.
    + split; [|congruence]. split; [|reflexivity]. intros _.
      apply Forall_forall. intros x Hx.
      rewrite forallb_forall in F. specialize (F x Hx).
      now apply negb_true_iff in F.
    + split; [|eauto]. split; [discriminate|]. intros H.
      assert (forallb (fun source => negb (truthy_opt (Item.url source)))
                (s0 :: sources) = true); [|congruence].
      apply forallb_forall. intros x Hx. rewrite Forall_forall in H.
      now rewrite (H x Hx).
Qed.

Lemma cited_items_nil (messages : list ReactMessage.t) :
  spec_search_entries messages = [] -> cited_items messages = [].
Proof.
  intros H. rewrite <- cited_items_entries in H.
  pose proof (cited_items_all_cited messages) as A.
  destruct (cited_items messages) as [|c cs]; [reflexivity|].
  inversion A as [|? ? Hc _]; subst.
  cbn [flat_map] in H. rewrite spec_entry_cited, Hc in H.
  unfold cited in Hc.
  destruct (Item.url c); [|discriminate Hc].
  destruct (Item.title c); [discriminate H | now rewrite andb_false_r in Hc].
Qed.

(** X15.  Without a cited entry in its search records, the agent's result
    gives the content of its last message as the reply, with nothing
    appended: records of another tool, outputs that are not lists, and
    entries without url or title add no Sources section. *)
Theorem X15_no_sources_without_cited_entries :
  forall (m : ReactMessage.t) (ms : list ReactMessage.t),
    spec_search_entries (m :: ms) = [] ->
    react_response_content (Some (m :: ms))
    = ReactMessage.content (last (m :: ms) m).
Proof.
  intros m ms H. unfold react_response_content.
  rewrite collect_sources_cited, cited_items_filter, (cited_items_nil _ H).
  now destruct (filter _ (m :: ms)).
Qed.

Lemma X15_no_sources_without_cited_entries_witness :
  react_response_content
    (Some [ReactMessage.mk []
             [ToolCall.mk (Some (py "lookup"))
                (Some (OutputList
                         [Item.mk (Some (py "https://a.example"))
                            (Some (py "First"))]));
              ToolCall.mk (Some (py "search")) (Some (OutputText (py "none")));
              ToolCall.mk (Some (py "search"))
                (Some (OutputList [Item.mk (Some (py "https://b.example"))
                                     None]))];
           plain_message "Answer"])
  = py "Answer".
Proof.
  exact (X15_no_sources_without_cited_entries
           (ReactMessage.mk []
              [ToolCall.mk (Some (py "lookup"))
                 (Some (OutputList
                          [Item.mk (Some (py "https://a.example"))
                             (Some (py "First"))]));
               ToolCall.mk (Some (py "search"))
                 (Some (OutputText (py "none")));
               ToolCall.mk (Some (py "search"))
                 (Some (OutputList [Item.mk (Some (py "https://b.example"))
                                      None]))])
           [plain_message "Answer"] eq_refl).
Defined.

Lemma X14_sources_section_needs_a_url_witness :
  exists links,
    format_source_urls [Item.mk (Some (py "https://a.example")) None]
    = [LF; LF] ++ py "**Sources:**" ++ [LF] ++ links.
Proof.
  refine (proj2 (X14_sources_section_needs_a_url
                   [Item.mk (Some (py "https://a.example")) None]) _).
  vm_compute. discriminate.
Defined.

(** ** The registry built from the environment *)

Ltac distinct_names :=
  repeat (constructor; [cbn [In]; intuition discriminate|]); constructor.

(** X16.  [get_model_clients] registers two names for each provider whose
    key is set and non-empty in the environment, and nothing else: the names
    are distinct, each is stored with the client built for it, and the
    registry is empty exactly when none of the four keys is set. *)
Theorem X16_registry_follows_the_keys :
  forall (getenv : pystr -> option pystr)
         (client_for : pystr -> model_factory),
    let MODEL_CLIENTS := get_model_clients getenv client_for in
    let set (key : pystr) := truthy_opt (getenv key) in
    NoDup (get_available_models MODEL_CLIENTS)
    /\ List.length MODEL_CLIENTS
       = 2 * (Nat.b2n (set (py "OPENAI_API_KEY"))
              + Nat.b2n (set (py "GOOGLE_API_KEY"))
              + Nat.b2n (set (py "ANTHROPIC_API_KEY"))
              + Nat.b2n (set (py "GROQ_API_KEY")))
    /\ (forall name factory,
           In (name, factory) MODEL_CLIENTS -> factory = client_for name)
    /\ (MODEL_CLIENTS = []
        <-> set (py "OPENAI_API_KEY") = false
            /\ set (py "GOOGLE_API_KEY") = false
            /\ set (py "ANTHROPIC_API_KEY") = false
            /\ set (py "GROQ_API_KEY") = false).
Proof.
  intros getenv client_for R set. subst R set.
  unfold get_available_models, get_model_clients. cbv beta zeta.
  destruct (truthy_opt (getenv (py "OPENAI_API_KEY")));
    destruct (truthy_opt (getenv (py "GOOGLE_API_KEY")));
    destruct (truthy_opt (getenv (py "ANTHROPIC_API_KEY")));
    destruct (truthy_opt (getenv (py "GROQ_API_KEY")));
    vm_compute dict_set; cbn [keys map fst List.length Nat.b2n];
    (split; [distinct_names|]);
    (split; [reflexivity|]);
    (split;
     [ intros name factory Hin; cbn [In] in Hin;
       repeat match goal with
              | H : _ \/ _ |- _ => destruct H
              | H : (_, _) = (_, _) |- _ => injection H as <- <-
              | H : False |- _ => destruct H
              end; reflexivity
     | split; [intros H; try discriminate H; tauto
              | intros (A & B & C & D); try discriminate; reflexivity] ]).
Qed.

(** ** The configuration of the search *)

Lemma model_mapping_truthy (model mapped : pystr) :
  dict_get model model_mapping = Some mapped -> truthy mapped = true.
Proof.
  unfold model_mapping. cbn [dict_get].
  repeat (destruct (str_eqb model _); [intros [= <-]; reflexivity|]).
  discriminate.
Qed.

Lemma existsb_str_eqb_in (name : pystr) (names : list pystr) :
  existsb (str_eqb name) names = true -> In name names.
Proof.
  intros H. apply existsb_exists in H. destruct H as (y & Hy & E).
  apply str_eqb_eq in E. now subst y.
Qed.

(** X17.  The two search endpoints name the model to the graph in the same
    way: a name of the mapping as provider/name, any other name as
    default/name.  The streaming search sets no fallback model.  The search
    endpoint sets one only if one of gpt-4o-mini, gemini-1.5-flash and
    llama-3.3-70b-versatile is registered and maps to another name than the
    model's, and then the fallback is the mapped name of such a one: it is
    never the model itself. *)
Theorem X17_search_configurations :
  forall (MODEL_CLIENTS : registry) (request : ReactAgentRequest.t),
    let sync := react_configuration MODEL_CLIENTS request in
    let streaming := react_streaming_configuration request in
    Configuration.model sync = Configuration.model streaming
    /\ Configuration.model streaming
       = match dict_get (ReactAgentRequest.model request) model_mapping with
         | Some mapped => mapped
         | None => py "default/" ++ ReactAgentRequest.model request
         end
    /\ Configuration.max_search_results sync
       = ReactAgentRequest.max_search_results request
    /\ Configuration.max_search_results streaming
       = ReactAgentRequest.max_search_results request
    /\ Configuration.fallback_model streaming = None
    /\ (forall fallback,
           Configuration.fallback_model sync = Some fallback ->
           fallback <> Configuration.model sync
           /\ exists model_id,
                In model_id [py "gpt-4o-mini"; py "gemini-1.5-flash";
                             py "llama-3.3-70b-versatile"]
                /\ In model_id (get_available_models MODEL_CLIENTS)
                /\ dict_get model_id model_mapping = Some fallback).
Proof.
  intros R request sync streaming. subst sync streaming.
  unfold react_configuration, react_streaming_configuration.
  set (am := match dict_get (ReactAgentRequest.model request) model_mapping
             with
             | Some m =>
                 if truthy m then m
                 else py "default/" ++ ReactAgentRequest.model request
             | None => py "default/" ++ ReactAgentRequest.model request
             end).
  assert (Eam : am = match dict_get (ReactAgentRequest.model request)
                             model_mapping with
                     | Some mapped => mapped
                     | None => py "default/" ++ ReactAgentRequest.model request
                     end).
  { unfold am.
    destruct (dict_get (ReactAgentRequest.model request) model_mapping)
      as [m|] eqn:G; [|reflexivity].
    now rewrite (model_mapping_truthy _ _ G). }
  cbn [fold_left].
  change (dict_get (py "gpt-4o-mini") model_mapping)
    with (Some (py "openai/gpt-4o-mini")).
  change (dict_get (py "gemini-1.5-flash") model_mapping)
    with (Some (py "google/gemini-1.5-flash")).
  change (dict_get (py "llama-3.3-70b-versatile") model_mapping)
    with (Some (py "groq/llama-3.3-70b-versatile")).
  assert (F : forall (model_id mapped : pystr),
             existsb (str_eqb model_id) (keys R)
             && negb (opt_str_eqb (Some mapped) am) = true ->
             mapped <> am /\ In model_id (get_available_models R)).
  { intros model_id mapped H. apply andb_true_iff in H.
    destruct H as [H1 H2]. split; [|now apply existsb_str_eqb_in].
    intros ->. cbn [opt_str_eqb] in H2. now rewrite str_eqb_refl in H2. }
  destruct (existsb (str_eqb (py "gpt-4o-mini")) (keys R)
            && negb (opt_str_eqb (Some (py "openai/gpt-4o-mini")) am))
    eqn:C1;
    destruct (existsb (str_eqb (py "gemini-1.5-flash")) (keys R)
              && negb (opt_str_eqb (Some (py "google/gemini-1.5-flash")) am))
      eqn:C2;
    destruct (existsb (str_eqb (py "llama-3.3-70b-versatile")) (keys R)
              && negb (opt_str_eqb
                         (Some (py "groq/llama-3.3-70b-versatile")) am))
      eqn:C3;
    cbn [app Configuration.model Configuration.max_search_results
         Configuration.fallback_model];
    (split; [exact Eam|]); (split; [reflexivity|]); (split; [reflexivity|]);
    (split; [reflexivity|]); (split; [reflexivity|]);
    intros fallback [= <-];
    first
      [ destruct (F _ _ C1) as [N I]; split; [exact N|];
        exists (py "gpt-4o-mini"); cbn [In]; auto
      | destruct (F _ _ C2) as [N I]; split; [exact N|];
        exists (py "gemini-1.5-flash"); cbn [In]; auto
      | destruct (F _ _ C3) as [N I]; split; [exact N|];
        exists (py "llama-3.3-70b-versatile"); cbn [In]; auto ].
Qed.

Lemma X17_search_configurations_witness :
  py "google/gemini-1.5-flash"
  <> Configuration.model
       (react_configuration
          [(py "gpt-4o-mini", Ok streaming_client);
           (py "gemini-1.5-flash", Ok plain_client)] sample_search).
Proof.
  exact (proj1 (proj2 (proj2 (proj2 (proj2 (proj2
           (X17_search_configurations
              [(py "gpt-4o-mini", Ok streaming_client);
               (py "gemini-1.5-flash", Ok plain_client)] sample_search)))))
           (py "google/gemini-1.5-flash") eq_refl)).
Defined.

(** ** File upload *)

Lemma rfind_from_spec (c : char) (s : pystr) :
  forall i,
    (0 <= i)%Z ->
    (rfind_from c s i = (-1)%Z /\ ~ In c s)
    \/ ((i <= rfind_from c s i < i + Z.of_nat (List.length s))%Z
        /\ nth_error s (Z.to_nat (rfind_from c s i - i)) = Some c
        /\ ~ In c (skipn (S (Z.to_nat (rfind_from c s i - i))) s)).
Proof.
  induction s as [|x s IH]; intros i Hi; [left; split; [reflexivity | easy]|].
  cbn [rfind_from]. cbv zeta.
  destruct (IH (i + 1)%Z ltac:(lia)) as [[E N]|(B & Hn & Hs)].
  - rewrite E. cbn [Z.leb Z.compare].
    destruct (N.eqb x c) eqn:X.
    + apply N.eqb_eq in X. subst x. right.
      rewrite Z.sub_diag. cbn [Z.to_nat nth_error skipn List.length].
      repeat split; [lia | lia | exact N].
    + left. split; [reflexivity|]. intros [H|H]; [|exact (N H)].
      subst x. now rewrite N.eqb_refl in X.
  - replace (0 <=? rfind_from c s (i + 1))%Z with true
      by (symmetry; apply Z.leb_le; lia).
    right.
    replace (Z.to_nat (rfind_from c s (i + 1) - i))
      with (S (Z.to_nat (rfind_from c s (i + 1) - (i + 1)))) by lia.
    cbn [nth_error skipn List.length]. repeat split; [lia | lia | exact Hn |].
    exact Hs.
Qed.

Lemma skipn_nth_error {A : Type} (l : list A) :
  forall n x, nth_error l n = Some x -> skipn n l = x :: skipn (S n) l.
Proof.
  induction l as [|y l IH]; intros [|n] x H; try discriminate.
  - now injection H as ->.
  - cbn [skipn]. exact (IH n x H).
Qed.

Lemma in_skipn {A : Type} (x : A) (n : nat) (l : list A) :
  In x (skipn n l) -> In x l.
Proof.
  intros H. rewrite <- (firstn_skipn n l). apply in_or_app. now right.
Qed.

(** [os.path.splitext]: the two parts make up the path; the extension holds
    no separator and is empty or one dot followed by no other dot. *)
Lemma splitext_spec (p : pystr) :
  fst (splitext p) ++ snd (splitext p) = p
  /\ ~ In SLASH (snd (splitext p))
  /\ (snd (splitext p) = []
      \/ exists e, snd (splitext p) = DOT :: e /\ ~ In DOT e).
Proof.
  unfold splitext, rfind. cbv zeta.
  destruct ((rfind_from SLASH p 0 <? rfind_from DOT p 0)%Z && _) eqn:C;
    cbn [fst snd]; [|rewrite app_nil_r; auto].
  apply andb_true_iff in C. destruct C as [C _]. apply Z.ltb_lt in C.
  destruct (rfind_from_spec DOT p 0 ltac:(lia)) as [[E _]|(B & Hn & Hs)].
  { destruct (rfind_from_spec SLASH p 0 ltac:(lia)) as [[E' _]|(B' & _)];
      lia. }
  rewrite Z.sub_0_r in Hn, Hs.
  set (d := Z.to_nat (rfind_from DOT p 0)) in *.
  split; [apply firstn_skipn|].
  rewrite (skipn_nth_error _ _ _ Hn). split; [|right; eauto].
  intros [H|H]; [discriminate H|].
  destruct (rfind_from_spec SLASH p 0 ltac:(lia)) as [[_ N]|(B' & _ & Hs')].
  - apply N. exact (in_skipn _ _ _ H).
  - rewrite Z.sub_0_r in Hs'. apply Hs'.
    set (q := Z.to_nat (rfind_from SLASH p 0)) in *.
    replace (S d) with ((S d - S q) + S q) in H by lia.
    rewrite <- skipn_skipn in H. exact (in_skipn _ _ _ H).
Qed.

Lemma uint_digits (d : Decimal.uint) :
  forallb is_digit (py (NilEmpty.string_of_uint d)) = true.
Proof. induction d; cbn; auto. Qed.

(** [str(n)] is a non-empty string of digits. *)
Lemma str_of_int_digits (n : N) :
  forallb is_digit (str_of_int n) = true /\ str_of_int n <> [].
Proof.
  unfold str_of_int, NilZero.string_of_uint.
  destruct (N.to_uint n) eqn:E; split;
    try (rewrite <- E; apply uint_digits); try reflexivity;
    cbn; discriminate.
Qed.

Lemma digits_no_slash (s : pystr) :
  forallb is_digit s = true -> ~ In SLASH s.
Proof.
  intros H Hin. rewrite forallb_forall in H. now specialize (H SLASH Hin).
Qed.

(** The path an upload writes to. *)
Lemma upload_path (timestamp : N) (uuid_hex ext : pystr) :
  path_join UPLOAD_DIR (str_of_int timestamp ++ py "_" ++ uuid_hex ++ ext)
  = py "uploads/" ++ str_of_int timestamp ++ py "_" ++ uuid_hex ++ ext.
Proof.
  destruct (str_of_int_digits timestamp) as [D N].
  unfold path_join. destruct (str_of_int timestamp) as [|c r]; [congruence|].
  cbn [forallb] in D. apply andb_true_iff in D. destruct D as [D _].
  cbn [app starts_with].
  assert (N.eqb c SLASH = false) as ->.
  { apply N.eqb_neq. intros ->. discriminate D. }
  reflexivity.
Qed.

(** X18.  Whatever name the client gives its file, an upload opens and
    writes one path only, "uploads/" followed by a name without a path
    separator: the seconds of the clock, an underscore, the random
    identifier and the extension of the client's name, which is empty or a
    dot followed by characters that are neither a dot nor a separator. *)
Theorem X18_upload_stays_in_upload_dir :
  forall (timestamp : N) (uuid_hex : pystr)
         (open_wb : pystr -> result unit)
         (write : pystr -> list Byte.byte -> result unit)
         (close : pystr -> result unit)
         (abspath : pystr -> pystr) (file : UploadFile.t) (a : fs_action),
    ~ In SLASH uuid_hex ->
    In a (fst (handle_file_upload timestamp uuid_hex open_wb write close
                 abspath file)) ->
    exists filename name,
      UploadFile.filename file = Some filename
      /\ fs_path a = py "uploads/" ++ name
      /\ ~ In SLASH name
      /\ name = str_of_int timestamp ++ py "_" ++ uuid_hex
                ++ snd (splitext filename)
      /\ fst (splitext filename) ++ snd (splitext filename) = filename
      /\ (snd (splitext filename) = []
          \/ exists e, snd (splitext filename) = DOT :: e /\ ~ In DOT e).
Proof.
  intros timestamp uuid_hex open_wb write close abspath file a Hhex Hin.
  unfold handle_file_upload in Hin.
  destruct (UploadFile.filename file) as [filename|] eqn:Fn; [|destruct Hin].
  destruct (splitext_spec filename) as (Hsplit & Hsep & Hext).
  exists filename,
    (str_of_int timestamp ++ py "_" ++ uuid_hex ++ snd (splitext filename)).
  rewrite upload_path in Hin.
  assert (Hpath : fs_path a
                  = py "uploads/" ++ str_of_int timestamp ++ py "_"
                    ++ uuid_hex ++ snd (splitext filename)).
  { destruct (open_wb _);
      [|cbn [fst In] in Hin; destruct Hin as [<-|[]]; reflexivity].
    destruct (UploadFile.read file); cbn [fst app In] in Hin;
      repeat match goal with
             | H : _ \/ _ |- _ => destruct H
             | H : False |- _ => destruct H
             end; subst a; reflexivity. }
  repeat split; auto.
  intros H. apply in_app_or in H. destruct H as [H|H].
  { exact (digits_no_slash _ (proj1 (str_of_int_digits timestamp)) H). }
  apply in_app_or in H. destruct H as [H|H].
  { cbn in H. destruct H as [H|[]]. discriminate H. }
  apply in_app_or in H. destruct H as [H|H]; [exact (Hhex H) | exact (Hsep H)].
Qed.

Lemma X18_upload_stays_in_upload_dir_witness :
  exists filename name,
    UploadFile.filename sample_upload = Some filename
    /\ fs_path (Open (py "uploads/1730629999_0af3.sh")) = py "uploads/" ++ name
    /\ ~ In SLASH name
    /\ name = str_of_int 1730629999 ++ py "_" ++ py "0af3"
              ++ snd (splitext filename)
    /\ fst (splitext filename) ++ snd (splitext filename) = filename
    /\ (snd (splitext filename) = []
        \/ exists e, snd (splitext filename) = DOT :: e /\ ~ In DOT e).
Proof.
  refine (X18_upload_stays_in_upload_dir 1730629999 (py "0af3")
            (fun _ => Ok tt) (fun _ _ => Ok tt) (fun _ => Ok tt)
            (fun p => py "/srv/" ++ p)
            sample_upload (Open (py "uploads/1730629999_0af3.sh")) _
            (or_introl eq_refl)).
  cbn [In py map list_ascii_of_string]. intuition discriminate.
Defined.

(** X19.  An upload returns a path only after it has opened the path,
    called [write] once with the bytes it read, and closed the file, all
    without an exception; the path returned is the absolute form of the
    path written.  Otherwise it raises the HTTP exception of status 500
    whose detail is "Failed to process file: " followed by the text of an
    exception; when the close raised, it is the text of the exception of
    the close.  A file that was opened is closed, once and last, however
    the upload ends; [write] is called at most once, after a read that
    succeeded, with the bytes read; and no call is made only when the file
    has no name. *)
Theorem X19_upload_outcome :
  forall (timestamp : N) (uuid_hex : pystr)
         (open_wb : pystr -> result unit)
         (write : pystr -> list Byte.byte -> result unit)
         (close : pystr -> result unit)
         (abspath : pystr -> pystr) (file : UploadFile.t),
    let run :=
      upload_file timestamp uuid_hex open_wb write close abspath file in
    ((exists path data,
         UploadFile.read file = Ok data
         /\ open_wb path = Ok tt /\ write path data = Ok tt
         /\ close path = Ok tt
         /\ fst run = [Open path; Write path data; Close path]
         /\ snd run = FilePath (abspath path))
     \/ (exists e,
            snd run
            = RaisedHTTPException 500
                (py "Failed to process file: " ++ Exn.str e)))
    /\ ((fst run = [] /\ UploadFile.filename file = None)
        \/ (exists path e, open_wb path = Exc e /\ fst run = [Open path])
        \/ (exists path e,
               open_wb path = Ok tt
               /\ UploadFile.read file = Exc e
               /\ fst run = [Open path; Close path])
        \/ (exists path data,
               open_wb path = Ok tt
               /\ UploadFile.read file = Ok data
               /\ fst run = [Open path; Write path data; Close path]))
    /\ (forall path e,
           In (Close path) (fst run) -> close path = Exc e ->
           snd run
           = RaisedHTTPException 500
               (py "Failed to process file: " ++ Exn.str e)).
Proof.
  intros timestamp uuid_hex open_wb write close abspath file run. subst run.
  unfold upload_file, handle_file_upload.
  destruct (UploadFile.filename file) as [filename|].
  - set (path := path_join UPLOAD_DIR _).
    destruct (open_wb path) as [[]|e] eqn:O.
    + destruct (UploadFile.read file) as [data|e] eqn:Rd.
      * destruct (write path data) as [[]|e] eqn:W;
          destruct (close path) as [[]|e'] eqn:C; cbn [fst snd app];
          (split; [|split]);
          try (right; right; right; exists path, data; now repeat split);
          try (right; eexists; reflexivity);
          try (intros p x [H|[H|[H|[]]]] Hc; try discriminate H;
               injection H as <-; congruence).
        left. exists path, data. now repeat split.
      * destruct (close path) as [[]|e'] eqn:C; cbn [fst snd app];
          (split; [|split]);
          try (right; eexists; reflexivity);
          try (right; right; left; exists path, e; now repeat split);
          intros p x [H|[H|[]]] Hc; try discriminate H;
            injection H as <-; congruence.
    + cbn [fst snd]. split; [right; eauto|]. split; [right; left; eauto|].
      intros p x [H|[]] _. discriminate H.
  - cbn [fst snd]. split; [right; eauto|]. split; [now left|].
    intros p x [].
Qed.

(** ** The two search endpoints side by side *)



(** [handle_media_generation] answers for "image" and "music" only. *)
Lemma handle_media_generation_none (prompt media_type : pystr) :
  handle_media_generation prompt media_type = None
  <-> media_type <> py "image" /\ media_type <> py "music".
Proof.
  unfold handle_media_generation.
  destruct (str_eqb media_type (py "image")) eqn:I.
  - apply str_eqb_eq in I. split; [discriminate | tauto].
  - destruct (str_eqb media_type (py "music")) eqn:M.
    + apply str_eqb_eq in M. split; [discriminate | tauto].
    + split; [|reflexivity]. intros _.
      split; intros E; apply str_eqb_eq in E; congruence.
Qed.

Lemma X16_registry_follows_the_keys_witness :
  Ok plain_client
  = (fun _ : pystr => Ok plain_client) (py "llama-3.3-70b-versatile").
Proof.
  exact (proj1 (proj2 (proj2
           (X16_registry_follows_the_keys
              (fun key => if str_eqb key (py "GROQ_API_KEY")
                          then Some (py "secret") else None)
              (fun _ => Ok plain_client))))
           (py "llama-3.3-70b-versatile") (Ok plain_client)
           (or_introl eq_refl)).
Defined.
